(** * A REST server over users and posts, and its retrying client

    A shallow embedding of [server.py] ([Database], [HTTPRequestHandler]) and
    of [client.py] ([HTTPClient._request],
    [SecureHTTPClient._request_with_retry]), followed by the properties of the
    store, of the dispatcher and of the retry loop.

    Conventions of the embedding.
    - Python integers are unbounded: [Z].
    - A value produced by [json.loads] is a [json]; a Python [dict] with string
      keys (a user record, a request body, a response envelope) is a
      [gmap string json]: [d.get(k)] is a lookup, [d.update(u)] is the
      left-biased union [u ∪ d].
    - A Python [dict] keyed by integer ids ([Database.users], [Database.posts])
      is an association list in insertion order, which is the order that
      [.values()] yields.
    - A Python exception is a value of [exn]; code that may raise returns a
      [result]; [try]/[except] is a [match] on it.
    - A read of the clock ([time.time()]) is an argument [now] of the
      operation that performs it. *)

From Stdlib Require Import ZArith Ascii DecimalString.
From Stdlib Require DecimalPos.
From stdpp Require Import gmap strings list fin_maps.

Set Warnings "-register-all".
Local Open Scope Z_scope.

(** ** Python values *)

(** A Python [float]: not-a-number, an infinity, or the finite value
    [m * 2 ^ e] (both zeros are [m = 0]). *)
Inductive pyfloat :=
| FNan
| FInf (negative : bool)
| FFin (m e : Z).

(** What [json.loads] returns. *)
Inductive json :=
| JNull
| JBool (b : bool)
| JInt (n : Z)
| JFloat (f : pyfloat)
| JStr (s : string)
| JList (l : list json)
| JObj (o : gmap string json).

Abbreviation dict := (gmap string json).

(** [{k1: v1, ...}]: a dict display (the keys of the displays below are
    distinct). *)
Definition mkdict (l : list (string * json)) : dict := list_to_map l.

(** [d.get(k)]: [None] (here [JNull]) when the key is missing. *)
Definition dict_get (d : dict) (k : string) : json := default JNull (d !! k).

(** [d.get(k, dflt)]. *)
Definition dict_get_default (d : dict) (k : string) (dflt : json) : json :=
  default dflt (d !! k).

(** Truth value of a dict: false exactly when it is empty. *)
Definition dict_truthy (d : dict) : bool := negb (Nat.eqb (size d) 0).

(** Comparison of the finite float [m * 2 ^ e] with the integer [n]; Python
    compares a float and an int by their exact values. *)
Definition float_cmp_int (m e n : Z) : comparison :=
  if 0 <=? e then (m * 2 ^ e) ?= n else m ?= n * 2 ^ (- e).

Definition float_eq_int (f : pyfloat) (n : Z) : bool :=
  match f with
  | FFin m e => match float_cmp_int m e n with Eq => true | _ => false end
  | _ => false
  end.

Definition float_ge_int (f : pyfloat) (n : Z) : bool :=
  match f with
  | FNan => false
  | FInf negative => negb negative
  | FFin m e => match float_cmp_int m e n with Lt => false | _ => true end
  end.

(** The integer a float is equal to, when there is one. *)
Definition float_to_int (f : pyfloat) : option Z :=
  match f with
  | FFin m e =>
      if 0 <=? e then Some (m * 2 ^ e)
      else if m mod 2 ^ (- e) =? 0 then Some (m / 2 ^ (- e)) else None
  | _ => None
  end.

(** [bool(v)]: Python's truth value, as [not v] and [if v:] use it. *)
Definition truthy (v : json) : bool :=
  match v with
  | JNull => false
  | JBool b => b
  | JInt n => negb (n =? 0)
  | JFloat (FFin m _) => negb (m =? 0)
  | JFloat _ => true
  | JStr s => negb (String.eqb s "")
  | JList l => match l with [] => false | _ => true end
  | JObj o => dict_truthy o
  end.

(** [v == n] for an integer [n]. *)
Definition py_eq_int (v : json) (n : Z) : bool :=
  match v with
  | JInt m => m =? n
  | JBool b => Z.b2z b =? n
  | JFloat f => float_eq_int f n
  | _ => false
  end.

(** [type(v).__name__]. *)
Definition type_name (v : json) : string :=
  match v with
  | JNull => "NoneType"
  | JBool _ => "bool"
  | JInt _ => "int"
  | JFloat _ => "float"
  | JStr _ => "str"
  | JList _ => "list"
  | JObj _ => "dict"
  end.

(** ** Exceptions *)

(** The exception classes the two programs can meet. The classes of
    [requests.exceptions] keep their hierarchy: [SSLError], [ProxyError] and
    [ConnectTimeout] derive from [ConnectionError]; [ConnectTimeout] and
    [ReadTimeout] derive from [Timeout]. [OtherException] is any other
    subclass of [Exception]. *)
Inductive exn_class :=
| ValueError
| TypeError
| AttributeError
| OverflowError
| UnboundLocalError
| SSLError
| ProxyError
| ConnectTimeout
| ConnectionError
| ReadTimeout
| Timeout
| OtherException (name : string).

(** An exception object: its class and [str(e)]. *)
Record exn := Exn { exn_cls : exn_class; exn_msg : string }.

Inductive result (A : Type) :=
| Ok (a : A)
| Raise (e : exn).
Arguments Ok {A} a.
Arguments Raise {A} e.

Definition is_SSLError (c : exn_class) : bool :=
  match c with SSLError => true | _ => false end.

Definition is_ConnectionError (c : exn_class) : bool :=
  match c with
  | SSLError | ProxyError | ConnectTimeout | ConnectionError => true
  | _ => false
  end.

Definition is_Timeout (c : exn_class) : bool :=
  match c with
  | ConnectTimeout | ReadTimeout | Timeout => true
  | _ => false
  end.

(** The integer key that [v] hashes and compares equal to, for a lookup of
    [v] in a dict keyed by integers ([v in d]): [Ok None] when [v] is hashable
    and equal to no integer; a list or a dict is unhashable. *)
Definition int_key (v : json) : result (option Z) :=
  match v with
  | JNull => Ok None
  | JBool b => Ok (Some (Z.b2z b))
  | JInt n => Ok (Some n)
  | JFloat f => Ok (float_to_int f)
  | JStr _ => Ok None
  | JList _ => Raise (Exn TypeError "unhashable type: 'list'")
  | JObj _ => Raise (Exn TypeError "unhashable type: 'dict'")
  end.

(** ** Strings *)

(** [s.split('/')]. *)
Fixpoint split_slash_aux (s cur : string) : list string :=
  match s with
  | EmptyString => [cur]
  | String c t =>
      if Ascii.eqb c "/"%char then cur :: split_slash_aux t ""
      else split_slash_aux t (cur +:+ String c "")
  end.

Definition split_slash (s : string) : list string := split_slash_aux s "".

(** [s.lstrip('/')]. *)
Fixpoint lstrip_slash (s : string) : string :=
  match s with
  | String c t => if Ascii.eqb c "/"%char then lstrip_slash t else s
  | EmptyString => EmptyString
  end.

(** [needle in hay] on strings. *)
Fixpoint str_contains (needle hay : string) : bool :=
  String.prefix needle hay
  || match hay with
     | EmptyString => false
     | String _ t => str_contains needle t
     end.

(** White space as [int()] strips it; a path is decoded as ISO-8859-1, one
    character per byte. *)
Definition is_space (c : ascii) : bool :=
  let n := Z.of_N (N_of_ascii c) in
  ((9 <=? n) && (n <=? 13)) || ((28 <=? n) && (n <=? 32))
  || (n =? 133) || (n =? 160).

Fixpoint lstrip_space (s : string) : string :=
  match s with
  | String c t => if is_space c then lstrip_space t else s
  | EmptyString => EmptyString
  end.

Fixpoint rstrip_space (s : string) : string :=
  match s with
  | EmptyString => EmptyString
  | String c t =>
      let t' := rstrip_space t in
      if String.eqb t' "" && is_space c then EmptyString else String c t'
  end.

Definition digit_of (c : ascii) : option Z :=
  let n := Z.of_N (N_of_ascii c) in
  if (48 <=? n) && (n <=? 57) then Some (n - 48) else None.

(** Decimal digits, single underscores allowed between two digits. *)
Fixpoint parse_digits (s : string) (acc : Z) (after_digit : bool) : option Z :=
  match s with
  | EmptyString => if after_digit then Some acc else None
  | String c t =>
      match digit_of c with
      | Some d => parse_digits t (10 * acc + d) true
      | None =>
          if Ascii.eqb c "_"%char && after_digit then parse_digits t acc false
          else None
      end
  end.

(** How many decimal digits a string holds. *)
Fixpoint count_digits (s : string) : Z :=
  match s with
  | EmptyString => 0
  | String c t =>
      match digit_of c with
      | Some _ => 1 + count_digits t
      | None => count_digits t
      end
  end.

(** The most digits that [int()] reads and [str()] writes in CPython 3.11,
    the version whose exception texts this file has: beyond it both raise
    [ValueError]. *)
Definition max_str_digits : Z := 4300.

(** [int(s)] for a string [s]; [None] stands for [ValueError], which is
    also what a text of more than [max_str_digits] digits gets. *)
Definition py_int (s : string) : option Z :=
  match rstrip_space (lstrip_space s) with
  | String c t =>
      if max_str_digits <? count_digits (String c t) then None
      else if Ascii.eqb c "-"%char then Z.opp <$> parse_digits t 0 false
      else if Ascii.eqb c "+"%char then parse_digits t 0 false
      else parse_digits (String c t) 0 false
  | EmptyString => None
  end.

(** The decimal text of an integer: what [str(n)] returns when it returns.
    [str(n)] itself raises once the text has more than [max_str_digits]
    digits ([ClientApi.format_int]); the integers inside a value of
    [json.loads] are never that long, [json.loads] reading them with
    [int()]. *)
Definition str_of_int (n : Z) : string := NilZero.string_of_int (Z.to_int n).


(** ** The server: [server.py] *)

Module Server.

(** *** A dict keyed by integer ids, in insertion order *)

Section int_dict.
Context {V : Type}.

(** [d.get(k)]. *)
Fixpoint od_get (k : Z) (d : list (Z * V)) : option V :=
  match d with
  | [] => None
  | (k', v) :: rest => if k' =? k then Some v else od_get k rest
  end.

(** [k in d]. *)
Definition od_mem (k : Z) (d : list (Z * V)) : bool :=
  match od_get k d with Some _ => true | None => false end.

(** [d[k] = v]: an existing key keeps its place, a new one goes last. *)
Fixpoint od_set (k : Z) (v : V) (d : list (Z * V)) : list (Z * V) :=
  match d with
  | [] => [(k, v)]
  | (k', v') :: rest =>
      if k' =? k then (k', v) :: rest else (k', v') :: od_set k v rest
  end.

(** [del d[k]]. *)
Definition od_del (k : Z) (d : list (Z * V)) : list (Z * V) :=
  List.filter (fun kv => negb (fst kv =? k)) d.

(** [list(d.values())]. *)
Definition od_values (d : list (Z * V)) : list V := List.map snd d.

End int_dict.

(** *** [class Database] *)

(** A post: the dict that [create_post] builds, whose five keys never
    change (no operation updates a post). *)
Record Post := mkPost {
  post_id : Z;
  post_title : json;
  post_content : json;
  post_author_id : json;
  post_created_at : pyfloat
}.

(** The post as the dict it is, for a response. *)
Definition post_dict (p : Post) : dict :=
  mkdict [("id", JInt (post_id p)); ("title", post_title p);
          ("content", post_content p); ("author_id", post_author_id p);
          ("created_at", JFloat (post_created_at p))]%string.

Record Database := mkDatabase {
  users : list (Z * dict);
  posts : list (Z * Post);
  next_user_id : Z;
  next_post_id : Z
}.

(** [Database.__init__]. *)
Definition Database_init : Database :=
  {| users := []; posts := []; next_user_id := 1; next_post_id := 1 |}.

(** [create_user]: returns the new user and the store after the call. *)
Definition create_user (db : Database) (name email age : json) (now : pyfloat)
  : dict * Database :=
  let user_id := next_user_id db in
  let user := mkdict [("id", JInt user_id); ("name", name); ("email", email);
                      ("age", age); ("created_at", JFloat now)]%string in
  (user, {| users := od_set user_id user (users db);
            posts := posts db;
            next_user_id := next_user_id db + 1;
            next_post_id := next_post_id db |}).

Definition get_user (db : Database) (user_id : Z) : option dict :=
  od_get user_id (users db).

Definition get_all_users (db : Database) : list dict := od_values (users db).

(** [update_user]: [self.users[user_id].update(updates)]. *)
Definition update_user (db : Database) (user_id : Z) (updates : dict)
  : option dict * Database :=
  match od_get user_id (users db) with
  | None => (None, db)
  | Some user =>
      let user' := updates ∪ user in
      (Some user', {| users := od_set user_id user' (users db);
                      posts := posts db;
                      next_user_id := next_user_id db;
                      next_post_id := next_post_id db |})
  end.

Definition delete_user (db : Database) (user_id : Z) : bool * Database :=
  if od_mem user_id (users db)
  then (true, {| users := od_del user_id (users db);
                 posts := posts db;
                 next_user_id := next_user_id db;
                 next_post_id := next_post_id db |})
  else (false, db).

(** [author_id in self.users], for the author id of a request body. *)
Definition author_in_users (db : Database) (author_id : json) : result bool :=
  match int_key author_id with
  | Raise e => Raise e
  | Ok None => Ok false
  | Ok (Some k) => Ok (od_mem k (users db))
  end.

(** [create_post]: [None] when the author is not a key of [self.users]; the
    membership test raises on an unhashable author id. *)
Definition create_post (db : Database) (title content author_id : json)
    (now : pyfloat) : result (option Post * Database) :=
  match author_in_users db author_id with
  | Raise e => Raise e
  | Ok false => Ok (None, db)
  | Ok true =>
      let pid := next_post_id db in
      let post := {| post_id := pid; post_title := title;
                     post_content := content; post_author_id := author_id;
                     post_created_at := now |} in
      Ok (Some post, {| users := users db;
                        posts := od_set pid post (posts db);
                        next_user_id := next_user_id db;
                        next_post_id := next_post_id db + 1 |})
  end.

Definition get_post (db : Database) (pid : Z) : option Post :=
  od_get pid (posts db).

Definition get_all_posts (db : Database) : list Post := od_values (posts db).

(** [[post for post in self.posts.values() if post['author_id'] == user_id]]. *)
Definition get_user_posts (db : Database) (user_id : Z) : list Post :=
  List.filter (fun post => py_eq_int (post_author_id post) user_id)
              (od_values (posts db)).

(** *** [class HTTPRequestHandler] *)

(** The methods that have a [do_] handler. *)
Inductive http_method := GET | POST | PUT | DELETE | OPTIONS.

(** An inbound request: its method, the path component of its target
    ([urlparse(self.path).path]) and what [_read_json_body] returns for its
    body, [None] when there is no body, when it is not JSON, or when it is the
    JSON [null]. The source declares this value an [Optional[Dict[str, Any]]]
    and so does the model. *)
Record request := mkRequest {
  command : http_method;
  path : string;
  json_body : option dict
}.

(** A response written to the connection: the status, the headers that
    [_set_headers] sends (the [Server] and [Date] headers that
    [send_response] writes before them are not recorded), the JSON body. *)
Record response := mkResponse {
  status_code : Z;
  headers : list (string * string);
  body : option dict
}.

(** The handler object: its store, and what it has written so far. *)
Record handler := mkHandler {
  db : Database;
  wfile : list response
}.

Definition with_db (h : handler) (d : Database) : handler :=
  {| db := d; wfile := wfile h |}.

(** The headers [_set_headers] sends after the status line. *)
Definition cors_headers : list (string * string) :=
  [("Content-Type", "application/json");
   ("Access-Control-Allow-Origin", "*");
   ("Access-Control-Allow-Methods", "GET, POST, PUT, DELETE, OPTIONS");
   ("Access-Control-Allow-Headers", "Content-Type, Authorization")]%string.

(** [_parse_path], from the path component on: [path r] is what
    [urlparse(self.path).path] returns, and the query goes unused. *)
Definition _parse_path (r : request) : list string :=
  List.filter (fun p => negb (String.eqb p "")) (split_slash (path r)).

(** [_read_json_body], when it returns: the reading of the [Content-Length]
    header, which can raise, is [Wire.read_json_body]. *)
Definition _read_json_body (r : request) : option dict := json_body r.

Definition _send_json_response (h : handler) (data : dict) (status : Z)
  : handler :=
  {| db := db h;
     wfile := wfile h ++ [ {| status_code := status; headers := cors_headers;
                              body := Some data |} ] |}.

Definition error_envelope (message : string) (now : pyfloat) : dict :=
  mkdict [("success", JBool false); ("error", JStr message);
          ("timestamp", JFloat now)]%string.

Definition _send_error (h : handler) (message : string) (status : Z)
    (now : pyfloat) : handler :=
  _send_json_response h (error_envelope message now) status.

Definition do_OPTIONS (h : handler) : handler :=
  {| db := db h;
     wfile := wfile h ++ [ {| status_code := 200; headers := cors_headers;
                              body := None |} ] |}.

(** [path_parts[i]], read only where the length test has passed. *)
Definition part (path_parts : list string) (i : nat) : string :=
  nth i path_parts ""%string.

Definition server_info : dict :=
  mkdict [("success", JBool true);
          ("message", JStr "HTTP Server is running!");
          ("version", JStr "1.0.0");
          ("endpoints", JObj (mkdict
             [("GET /", JStr "Server info");
              ("GET /users", JStr "Get all users");
              ("GET /users/{id}", JStr "Get user by ID");
              ("POST /users", JStr "Create user");
              ("PUT /users/{id}", JStr "Update user");
              ("DELETE /users/{id}", JStr "Delete user");
              ("GET /posts", JStr "Get all posts");
              ("GET /posts/{id}", JStr "Get post by ID");
              ("POST /posts", JStr "Create post");
              ("GET /users/{id}/posts", JStr "Get user posts")]))]%string.

Definition entity_envelope (d : dict) : dict :=
  mkdict [("success", JBool true); ("data", JObj d)]%string.

Definition list_envelope (l : list dict) : dict :=
  mkdict [("success", JBool true); ("data", JList (JObj <$> l));
          ("count", JInt (Z.of_nat (length l)))]%string.

Definition message_envelope (message : string) (d : dict) : dict :=
  mkdict [("success", JBool true); ("message", JStr message);
          ("data", JObj d)]%string.

(** [do_GET]. Inside the [users] and [posts] branches the chain of tests on
    the number of segments has no final [else]: a path that passes none of
    them leaves the handler as it was, nothing written. *)
Definition do_GET (now : pyfloat) (path_parts : list string) (h : handler)
  : handler :=
  if Nat.eqb (length path_parts) 0 then
    _send_json_response h server_info 200
  else if String.eqb (part path_parts 0) "users" then
    if Nat.eqb (length path_parts) 1 then
      _send_json_response h (list_envelope (get_all_users (db h))) 200
    else if Nat.eqb (length path_parts) 2 then
      match py_int (part path_parts 1) with
      | Some user_id =>
          match get_user (db h) user_id with
          | Some user =>
              if dict_truthy user
              then _send_json_response h (entity_envelope user) 200
              else _send_error h "User not found" 404 now
          | None => _send_error h "User not found" 404 now
          end
      | None => _send_error h "Invalid user ID" 400 now
      end
    else if Nat.eqb (length path_parts) 3
            && String.eqb (part path_parts 2) "posts" then
      match py_int (part path_parts 1) with
      | Some user_id =>
          _send_json_response h
            (list_envelope (post_dict <$> get_user_posts (db h) user_id)) 200
      | None => _send_error h "Invalid user ID" 400 now
      end
    else h
  else if String.eqb (part path_parts 0) "posts" then
    if Nat.eqb (length path_parts) 1 then
      _send_json_response h
        (list_envelope (post_dict <$> get_all_posts (db h))) 200
    else if Nat.eqb (length path_parts) 2 then
      match py_int (part path_parts 1) with
      | Some pid =>
          match get_post (db h) pid with
          | Some post => _send_json_response h (entity_envelope (post_dict post)) 200
          | None => _send_error h "Post not found" 404 now
          end
      | None => _send_error h "Invalid post ID" 400 now
      end
    else h
  else _send_error h "Endpoint not found" 404 now.

(** [do_POST]. The only exception that the body of its [try] can raise is the
    [TypeError] of [create_post]; [except Exception] turns it into a 500. *)
Definition do_POST (now : pyfloat) (path_parts : list string)
    (data : option dict) (h : handler) : handler :=
  match data with
  | None => _send_error h "Invalid JSON data" 400 now
  | Some data =>
      if negb (Nat.eqb (length path_parts) 0)
         && String.eqb (part path_parts 0) "users"
         && Nat.eqb (length path_parts) 1 then
        let name := dict_get data "name" in
        let email := dict_get data "email" in
        let age := dict_get data "age" in
        if negb (truthy name) || negb (truthy email) then
          _send_error h "Name and email are required" 400 now
        else
          let '(user, db') := create_user (db h) name email age now in
          _send_json_response (with_db h db')
            (message_envelope "User created successfully" user) 201
      else if negb (Nat.eqb (length path_parts) 0)
              && String.eqb (part path_parts 0) "posts"
              && Nat.eqb (length path_parts) 1 then
        let title := dict_get data "title" in
        let content := dict_get data "content" in
        let author_id := dict_get data "author_id" in
        if negb (truthy title) || negb (truthy content)
           || negb (truthy author_id) then
          _send_error h "Title, content, and author_id are required" 400 now
        else
          match create_post (db h) title content author_id now with
          | Ok (Some post, db') =>
              _send_json_response (with_db h db')
                (message_envelope "Post created successfully" (post_dict post))
                201
          | Ok (None, _) => _send_error h "Author not found" 404 now
          | Raise e =>
              _send_error h ("Server error: " +:+ exn_msg e) 500 now
          end
      else _send_error h "Endpoint not found" 404 now
  end.

Definition do_PUT (now : pyfloat) (path_parts : list string)
    (data : option dict) (h : handler) : handler :=
  match data with
  | None => _send_error h "Invalid JSON data" 400 now
  | Some data =>
      if negb (Nat.eqb (length path_parts) 0)
         && String.eqb (part path_parts 0) "users"
         && Nat.eqb (length path_parts) 2 then
        match py_int (part path_parts 1) with
        | Some user_id =>
            match update_user (db h) user_id data with
            | (Some updated_user, db') =>
                if dict_truthy updated_user
                then _send_json_response (with_db h db')
                       (message_envelope "User updated successfully"
                          updated_user) 200
                else _send_error (with_db h db') "User not found" 404 now
            | (None, _) => _send_error h "User not found" 404 now
            end
        | None => _send_error h "Invalid user ID" 400 now
        end
      else _send_error h "Endpoint not found" 404 now
  end.

Definition do_DELETE (now : pyfloat) (path_parts : list string) (h : handler)
  : handler :=
  if negb (Nat.eqb (length path_parts) 0)
     && String.eqb (part path_parts 0) "users"
     && Nat.eqb (length path_parts) 2 then
    match py_int (part path_parts 1) with
    | Some user_id =>
        match delete_user (db h) user_id with
        | (true, db') =>
            _send_json_response (with_db h db')
              (mkdict [("success", JBool true);
                       ("message", JStr "User deleted successfully")]%string)
              200
        | (false, _) => _send_error h "User not found" 404 now
        end
    | None => _send_error h "Invalid user ID" 400 now
    end
  else _send_error h "Endpoint not found" 404 now.

(** One request on a handler: the method picks the [do_] function. [now] is
    the clock reading of the one [time.time()] call the request can make. *)
Definition handle_one_request (now : pyfloat) (r : request) (h : handler)
  : handler :=
  match command r with
  | GET => do_GET now (_parse_path r) h
  | POST => do_POST now (_parse_path r) (_read_json_body r) h
  | PUT => do_PUT now (_parse_path r) (_read_json_body r) h
  | DELETE => do_DELETE now (_parse_path r) h
  | OPTIONS => do_OPTIONS h
  end.

(** [HTTPRequestHandler.__init__]: [self.db = Database()]. *)
Definition HTTPRequestHandler_init : handler :=
  {| db := Database_init; wfile := [] |}.

(** What [HTTPServer] does with an accepted connection: it builds a handler
    object, whose constructor serves the connection. The handler's
    [protocol_version] is the default one, HTTP/1.0, under which a connection
    carries one request. *)
Definition finish_request (now : pyfloat) (r : request) : list response :=
  wfile (handle_one_request now r HTTPRequestHandler_init).

(** [serve_forever] over the requests that arrive, each with its clock
    reading: the responses, request by request. *)
Definition serve_forever (arrivals : list (pyfloat * request))
  : list (list response) :=
  List.map (fun a => finish_request (fst a) (snd a)) arrivals.

(** Several requests run on one handler object, hence on one store; this is
    what a store shared by the requests would give. *)
Definition handle_all (arrivals : list (pyfloat * request)) (h : handler)
  : handler :=
  fold_left (fun h a => handle_one_request (fst a) (snd a) h) arrivals h.

End Server.

(** ** The client: [client.py] *)

Module Client.

(** What [session.request] hands back: the status code, the body text, and
    what [response.json()] returns, [None] when it raises. The JSON parser is
    outside the model: the two readings of the body are independent fields,
    and [text] is read only when [json_value] is [None]. *)
Record http_response := mkHttpResponse {
  status_code : Z;
  text : string;
  json_value : option json
}.

(** One HTTP exchange: a response, or the exception [session.request]
    raises. *)
Inductive exchange :=
| Responded (r : http_response)
| Failed (e : exn).

(** What the client does to the outside, in order. *)
Inductive event :=
| EvRequest (method url : string)
| EvPrint (attempt_number : Z) (delay : pyfloat)
| EvSleep (delay : pyfloat).

(** Where the client runs: [net i] is how the [i]-th exchange of the session
    ends; [py_repr] is the text [str()] gives for a float, a list or a dict;
    [sleep_check d] is the exception [time.sleep(d)] raises, if any. *)
Record runtime := mkRuntime {
  net : nat -> exchange;
  py_repr : json -> string;
  sleep_check : pyfloat -> option exn
}.

(** The fields of a [SecureHTTPClient] that the request path reads. TLS
    verification happens inside [session.request] and shows as an
    [SSLError]. *)
Record client := mkClient {
  base_url : string;
  max_retries : Z;
  retry_delay : pyfloat
}.

(** [SecureHTTPClient(base_url)]: the defaults of [__init__]. *)
Definition default_client (url : string) : client :=
  {| base_url := url; max_retries := 3; retry_delay := FFin 1 0 |}.

(** The state a computation threads: exchanges done, and the events so far. *)
Record world := mkWorld {
  exchanges : nat;
  trace : list event
}.

Definition world0 : world := {| exchanges := 0; trace := [] |}.

(** Computations that read and extend the world, and return or raise. *)
Definition M (A : Type) : Type := world -> result A * world.

Definition ret {A} (a : A) : M A := fun w => (Ok a, w).

Definition raise {A} (e : exn) : M A := fun w => (Raise e, w).

Definition bind {A B} (c : M A) (k : A -> M B) : M B :=
  fun w => match c w with
           | (Ok a, w') => k a w'
           | (Raise e, w') => (Raise e, w')
           end.

(** [try: c except Exception as e: handler(e)]. *)
Definition try_except {A} (c : M A) (handler : exn -> M A) : M A :=
  fun w => match c w with
           | (Ok a, w') => (Ok a, w')
           | (Raise e, w') => handler e w'
           end.

Definition lift {A} (r : result A) : M A := fun w => (r, w).

Definition emit (ev : event) : M unit :=
  fun w => (Ok tt, {| exchanges := exchanges w; trace := trace w ++ [ev] |}).

Notation "x <- c ;; k" := (bind c (fun x => k))
  (at level 100, c at next level, right associativity).
Notation "c ;;; k" := (bind c (fun _ => k))
  (at level 100, right associativity).

Section methods.
Variable env : runtime.
Variable self : client.

(** [self.session.request(...)]: one exchange. *)
Definition session_request (method url : string) : M http_response :=
  fun w =>
    let w' := {| exchanges := S (exchanges w);
                 trace := trace w ++ [EvRequest method url] |} in
    match net env (exchanges w) with
    | Responded r => (Ok r, w')
    | Failed e => (Raise e, w')
    end.

(** [time.sleep(d)]. *)
Definition time_sleep (d : pyfloat) : M unit :=
  match sleep_check env d with
  | Some e => raise e
  | None => emit (EvSleep d)
  end.

(** [v.update(u)]: only a dict has the method. *)
Definition py_update (v : json) (u : dict) : result dict :=
  match v with
  | JObj d => Ok (u ∪ d)
  | _ => Raise (Exn AttributeError
                  ("'" +:+ type_name v +:+ "' object has no attribute 'update'"))
  end.

Definition status_info (response : http_response) : dict :=
  mkdict [("_status_code", JInt (status_code response));
          ("_success", JBool (status_code response <? 400)%Z)]%string.

Definition error_with_suggestion (message suggestion : string) : dict :=
  mkdict [("success", JBool false); ("error", JStr message);
          ("suggestion", JStr suggestion)]%string.

(** The [except] clauses of [_request], in their order. *)
Definition request_handlers (e : exn) : dict :=
  if is_SSLError (exn_cls e) then
    error_with_suggestion ("SSL Error: " +:+ exn_msg e)
      "Try using --no-verify-ssl or provide correct certificate"
  else if is_ConnectionError (exn_cls e) then
    error_with_suggestion ("Connection Error: " +:+ exn_msg e)
      "Check if server is running and URL is correct"
  else if is_Timeout (exn_cls e) then
    error_with_suggestion ("Timeout Error: " +:+ exn_msg e)
      "Increase timeout or check network connection"
  else
    mkdict [("success", JBool false);
            ("error", JStr ("Request Error: " +:+ exn_msg e))]%string.

(** [HTTPClient._request]. *)
Definition _request (method endpoint : string) : M dict :=
  let url := base_url self +:+ "/" +:+ lstrip_slash endpoint in
  try_except
    (response <- session_request method url ;;
     let response_data :=
       match json_value response with
       | Some v => v
       | None => JObj (mkdict [("raw_response", JStr (text response))]%string)
       end in
     lift (py_update response_data (status_info response)))
    (fun e => ret (request_handlers e)).

(** [str(v)]. *)
Definition py_str (v : json) : string :=
  match v with
  | JNull => "None"
  | JBool true => "True"
  | JBool false => "False"
  | JInt n => str_of_int n
  | JStr s => s
  | _ => py_repr env v
  end.

(** [v >= n] for an integer [n]. *)
Definition py_ge_int (v : json) (n : Z) : result bool :=
  match v with
  | JBool b => Ok (n <=? Z.b2z b)
  | JInt m => Ok (n <=? m)
  | JFloat f => Ok (float_ge_int f n)
  | _ => Raise (Exn TypeError
                  ("'>=' not supported between instances of '"
                   +:+ type_name v +:+ "' and 'int'"))
  end.

(** The test that guards the retry: [or] evaluates left to right and stops
    at the first true operand. *)
Definition should_retry (res : dict) : result bool :=
  match py_ge_int (dict_get_default res "_status_code" (JInt 0)) 500 with
  | Raise e => Raise e
  | Ok true => Ok true
  | Ok false =>
      let error := py_str (dict_get_default res "error" (JStr "")) in
      Ok (str_contains "Connection Error" error || str_contains "Timeout" error)
  end.

(** [range(n)]. *)
Definition py_range (n : Z) : list Z := Z.of_nat <$> seq 0 (Z.to_nat n).

(** The [for] loop of [_request_with_retry] over the attempts left, then the
    [return result] after it. [last] is the local [result]: [None] while it
    is unbound. *)
Fixpoint retry_loop (method endpoint : string) (attempts : list Z)
    (last : option dict) : M dict :=
  match attempts with
  | [] =>
      match last with
      | Some res => ret res
      | None =>
          raise (Exn UnboundLocalError
                   "cannot access local variable 'result' where it is not associated with a value")
      end
  | attempt :: rest =>
      res <- _request method endpoint ;;
      retry <- lift (should_retry res) ;;
      if retry && (attempt <? max_retries self - 1) then
        emit (EvPrint (attempt + 1) (retry_delay self)) ;;;
        time_sleep (retry_delay self) ;;;
        retry_loop method endpoint rest (Some res)
      else ret res
  end.

(** [SecureHTTPClient._request_with_retry]. *)
Definition _request_with_retry (method endpoint : string) : M dict :=
  retry_loop method endpoint (py_range (max_retries self)) None.

End methods.

(** [time.sleep] as CPython has it for the delays of this file: a negative
    or not-a-number delay is a [ValueError], an infinite one, of either
    sign, an [OverflowError]. *)
Definition cpython_sleep_check (d : pyfloat) : option exn :=
  match d with
  | FNan => Some (Exn ValueError "Invalid value NaN (not a number)")
  | FInf _ =>
      Some (Exn OverflowError "timestamp too large to convert to C _PyTime_t")
  | FFin m _ =>
      if m <? 0 then Some (Exn ValueError "sleep length must be non-negative")
      else None
  end.

(** The requests a run issued, and the delays it slept. *)
Definition requests_of (t : list event) : list event :=
  List.filter (fun ev => match ev with EvRequest _ _ => true | _ => false end) t.

Definition sleeps_of (t : list event) : list pyfloat :=
  omap (fun ev => match ev with EvSleep d => Some d | _ => None end) t.

(** *** Readings used to state the properties *)

(** The dict that [_request] returns when its exchange ends as [x]. *)
Definition outcome (x : exchange) : dict :=
  match x with
  | Failed e => request_handlers e
  | Responded response =>
      let response_data :=
        match json_value response with
        | Some v => v
        | None => JObj (mkdict [("raw_response", JStr (text response))]%string)
        end in
      match py_update response_data (status_info response) with
      | Ok d => d
      | Raise e => request_handlers e
      end
  end.

(** The world after one more exchange. *)
Definition after_request (method url : string) (w : world) : world :=
  {| exchanges := S (exchanges w);
     trace := trace w ++ [EvRequest method url] |}.

Definition request_url (self : client) (endpoint : string) : string :=
  base_url self +:+ "/" +:+ lstrip_slash endpoint.

(** The three operands of the retry test, on a dict whose [_status_code] is
    an integer or missing. *)
Definition status_at_least_500 (res : dict) : bool :=
  match res !! "_status_code" with
  | Some (JInt n) => 500 <=? n
  | _ => false
  end.

Definition error_text (env : runtime) (res : dict) : string :=
  py_str env (dict_get_default res "error" (JStr "")).

Definition triggers (env : runtime) (res : dict) : bool :=
  status_at_least_500 res
  || str_contains "Connection Error" (error_text env res)
  || str_contains "Timeout" (error_text env res).

(** The outcome kinds of the specification, in its priority order, and the
    outcomes it says are retried. *)
Inductive outcome_kind :=
| tls_error
| connection_error
| timeout_error
| generic_error
| response_received (status : Z).

Definition kind_of (x : exchange) : outcome_kind :=
  match x with
  | Failed e =>
      if is_SSLError (exn_cls e) then tls_error
      else if is_ConnectionError (exn_cls e) then connection_error
      else if is_Timeout (exn_cls e) then timeout_error
      else generic_error
  | Responded response => response_received (status_code response)
  end.

Definition retried_by_specification (k : outcome_kind) : bool :=
  match k with
  | response_received status => 500 <=? status
  | connection_error | timeout_error => true
  | tls_error | generic_error => false
  end.

End Client.

(** ** Runs of the store, and the route table *)

Module Store.
Import Server.

(** The operations of [Database] that change it. *)
Inductive op :=
| CreateUser (name email age : json) (now : pyfloat)
| UpdateUser (user_id : Z) (updates : dict)
| DeleteUser (user_id : Z)
| CreatePost (title content author_id : json) (now : pyfloat).

(** An id handed out by a create operation: the [id] of the user returned by
    [create_user], the [id] of the post returned by [create_post]. *)
Inductive assigned :=
| UserId (v : json)
| PostId (n : Z).

Definition step (db : Database) (o : op) : Database * list assigned :=
  match o with
  | CreateUser name email age now =>
      let r := create_user db name email age now in
      (snd r, [UserId (dict_get (fst r) "id")])
  | UpdateUser user_id updates => (snd (update_user db user_id updates), [])
  | DeleteUser user_id => (snd (delete_user db user_id), [])
  | CreatePost title content author_id now =>
      match create_post db title content author_id now with
      | Ok (Some post, db') => (db', [PostId (post_id post)])
      | Ok (None, db') => (db', [])
      | Raise _ => (db, [])
      end
  end.

(** A sequence of operations on one store, with the ids handed out, in
    order. *)
Fixpoint run (ops : list op) (db : Database) : Database * list assigned :=
  match ops with
  | [] => (db, [])
  | o :: rest =>
      let r1 := step db o in
      let r2 := run rest (fst r1) in
      (fst r2, snd r1 ++ snd r2)
  end.

Definition user_ids (log : list assigned) : list json :=
  omap (fun a => match a with UserId v => Some v | PostId _ => None end) log.

Definition post_ids (log : list assigned) : list Z :=
  omap (fun a => match a with PostId n => Some n | UserId _ => None end) log.

(** [start, start + 1, ..., start + n - 1]. *)
Fixpoint zseq (start : Z) (n : nat) : list Z :=
  match n with
  | O => []
  | S n' => start :: zseq (start + 1) n'
  end.

(** The rows of the route table: method and shape of the path segments. *)
Definition is_users (p : string) : bool := String.eqb p "users".
Definition is_posts (p : string) : bool := String.eqb p "posts".

Definition route_table (m : http_method) (path_parts : list string) : bool :=
  match m, path_parts with
  | GET, [] => true
  | GET, [a] => is_users a || is_posts a
  | GET, [a; _] => is_users a || is_posts a
  | GET, [a; _; c] => is_users a && is_posts c
  | POST, [a] => is_users a || is_posts a
  | PUT, [a; _] => is_users a
  | DELETE, [a; _] => is_users a
  | OPTIONS, _ => true
  | _, _ => false
  end.

(** What every store reached from [Database()] satisfies: the keys of
    [users] are ids already handed out, and the author of every stored post
    was one of them when the post was created. *)
Definition authors_were_users (db : Database) : Prop :=
  1 <= next_user_id db
  /\ (forall k, od_mem k (users db) = true -> 1 <= k < next_user_id db)
  /\ (forall p, In p (od_values (posts db)) ->
        exists k, int_key (post_author_id p) = Ok (Some k)
                  /\ 1 <= k < next_user_id db).

End Store.

(** ** Sample data *)

Module Sample.
Import Server Client.

Definition t0 : pyfloat := FFin 1700000000 0.

Definition alice : dict :=
  mkdict [("name", JStr "Alice"); ("email", JStr "a@x.com");
          ("age", JInt 28)]%string.

(** The handler after [POST /users] with [alice] at time [t0]. *)
Definition h_alice : handler :=
  handle_one_request t0 (mkRequest POST "/users" (Some alice))
    HTTPRequestHandler_init.

Definition post_by (author : json) : dict :=
  mkdict [("title", JStr "T"); ("content", JStr "C");
          ("author_id", author)]%string.

(** A 503 answer whose body is the empty JSON object. *)
Definition unavailable : exchange :=
  Responded {| status_code := 503; text := "{}";
               json_value := Some (JObj ∅) |}.

(** A 404 answer whose body is a JSON object with an [error] field. *)
Definition not_found_with (message : string) : exchange :=
  Responded {| status_code := 404; text := message;
               json_value := Some (JObj (mkdict
                 [("success", JBool false); ("error", JStr message)]%string)) |}.

(** A 200 answer whose body is the JSON array [[]]. *)
Definition empty_array_answer : exchange :=
  Responded {| status_code := 200; text := "[]";
               json_value := Some (JList []) |}.

(** A text for floats, lists and dicts; the runs below never ask for it,
    their [error] fields being strings or missing. *)
Definition opaque_repr (v : json) : string := "...".

(** A runtime in which every exchange ends the same way. *)
Definition always (x : exchange) : runtime :=
  {| net := fun _ => x; py_repr := opaque_repr;
     sleep_check := cpython_sleep_check |}.

Definition local_client : client := default_client "https://localhost:8443".

(** The record of user 1 in [h_alice]. *)
Definition alice_record : dict :=
  mkdict [("id", JInt 1); ("name", JStr "Alice"); ("email", JStr "a@x.com");
          ("age", JInt 28); ("created_at", JFloat t0)]%string.

Definition rename : dict := mkdict [("name", JStr "Alicia")]%string.

(** [h_alice] after [POST /posts] with a post by user 1. *)
Definition h_alice_post : handler :=
  handle_one_request t0 (mkRequest POST "/posts" (Some (post_by (JInt 1))))
    h_alice.

End Sample.

(** ** The rest of the client: typed methods and the health check *)

Module ClientApi.
Import Client.

Section api.
Variable env : runtime.
Variable self : client.

(** [get_server_info]. *)
Definition get_server_info : M dict := _request env self "GET" "".

(** [SecureHTTPClient.health_check]:
    [result.get('_status_code', 0) == 200]. *)
Definition health_check : M bool :=
  res <- get_server_info ;;
  ret (py_eq_int (dict_get_default res "_status_code" (JInt 0)) 200).

End api.

(** The bodies and endpoints that the typed methods hand to [_request]. *)


(** [create_post]. *)
Definition create_post_data (title content : string) (author_id : Z) : dict :=
  mkdict [("title", JStr title); ("content", JStr content);
          ("author_id", JInt author_id)]%string.

(** [str(n)], as an f-string writes an integer: a text of more than
    [max_str_digits] digits is a [ValueError]. *)
Definition format_int (n : Z) : result string :=
  if max_str_digits <? count_digits (str_of_int n)
  then Raise (Exn ValueError
                "Exceeds the limit (4300 digits) for integer string conversion")
  else Ok (str_of_int n).

(** [f'users/{user_id}'], of [get_user], [update_user] and [delete_user]. *)
Definition user_endpoint (user_id : Z) : result string :=
  match format_int user_id with
  | Ok text => Ok ("users/" +:+ text)
  | Raise e => Raise e
  end.

(** [f'posts/{post_id}'], of [get_post]. *)
Definition post_endpoint (pid : Z) : result string :=
  match format_int pid with
  | Ok text => Ok ("posts/" +:+ text)
  | Raise e => Raise e
  end.

(** [f'users/{user_id}/posts'], of [get_user_posts]. *)
Definition user_posts_endpoint (user_id : Z) : result string :=
  match format_int user_id with
  | Ok text => Ok ("users/" +:+ text +:+ "/posts")
  | Raise e => Raise e
  end.

(** The events of a call of [_request_with_retry] that makes [n] attempts,
    the first of them numbered [attempt]: a request, then for each further
    attempt the notice, the pause and the request. *)
Fixpoint attempts_trace (method url : string) (d : pyfloat) (attempt : Z)
    (n : nat) : list event :=
  match n with
  | O => []
  | S n' =>
      match n' with
      | O => [EvRequest method url]
      | S _ =>
          EvRequest method url :: EvPrint (attempt + 1) d :: EvSleep d
          :: attempts_trace method url d (attempt + 1) n'
      end
  end.

(** The label that the [except] clauses of [_request] give a fault, class by
    class. *)
Definition fault_label (c : exn_class) : string :=
  match c with
  | SSLError => "SSL Error"
  | ProxyError | ConnectTimeout | ConnectionError => "Connection Error"
  | ReadTimeout | Timeout => "Timeout Error"
  | _ => "Request Error"
  end.

End ClientApi.

(** ** A request as it arrives, with its [Content-Length] header *)

Module Wire.
Import Server.

(** What the handler finds on the connection: the method, the path
    component of the target, the [Content-Length] header when there is one,
    and what the [try] block of [_read_json_body] gives when it is reached
    ([None] when the body is not JSON or is the JSON [null]; as in
    [request], the value is the [Optional[Dict[str, Any]]] the source
    declares). *)
Record inbound := mkInbound {
  in_command : http_method;
  in_path : string;
  in_content_length : option string;
  in_json : option dict
}.

(** [_read_json_body]: [int(self.headers.get('Content-Length', 0))] stands
    outside the [try], so a header that [int()] refuses raises
    [ValueError]; a length of 0, or no header, is [None]. *)
Definition read_json_body (i : inbound) : result (option dict) :=
  match in_content_length i with
  | None => Ok None
  | Some text =>
      match py_int text with
      | None =>
          Raise (Exn ValueError
                   ("invalid literal for int() with base 10: '" +:+ text +:+ "'"))
      | Some content_length =>
          if content_length =? 0 then Ok None else Ok (in_json i)
      end
  end.

(** One request as it arrives. [do_POST] and [do_PUT] read the body before
    their [try]: when the reading raises, the exception leaves the handler,
    which has written nothing. The other methods do not read the body. *)
Definition serve (now : pyfloat) (i : inbound) (h : handler) : handler :=
  match in_command i with
  | POST | PUT =>
      match read_json_body i with
      | Ok data =>
          handle_one_request now (mkRequest (in_command i) (in_path i) data) h
      | Raise _ => h
      end
  | _ => handle_one_request now (mkRequest (in_command i) (in_path i) None) h
  end.

End Wire.

(** ** What the stores reached from [Database()] satisfy *)

Module Reach.
Import Server Store.

(** The keys of a dict, in its order. *)
Definition od_keys {V} (d : list (Z * V)) : list Z := List.map fst d.

(** No key occurs twice, and every key is an id already handed out. *)
Definition keys_fresh {V} (d : list (Z * V)) (next : Z) : Prop :=
  NoDup (od_keys d) /\ Forall (fun k => k < next) (od_keys d).

Definition well_keyed (db : Database) : Prop :=
  keys_fresh (users db) (next_user_id db)
  /\ keys_fresh (posts db) (next_post_id db)
  /\ (forall k p, od_get k (posts db) = Some p -> post_id p = k).

(** The statuses the handler writes. *)
Definition known_status (status : Z) : bool :=
  (status =? 200) || (status =? 201) || (status =? 400) || (status =? 404)
  || (status =? 500).

(** A response whose JSON body says [success] exactly when the status is
    below 400; the body-less answer to OPTIONS is a 200. *)
Definition envelope_agrees (r : response) : Prop :=
  match body r with
  | Some d => d !! "success" = Some (JBool (status_code r <? 400))
  | None => status_code r = 200
  end.

(** [parts] joined by slashes, each segment after one: [/a/b]. *)
Fixpoint join_path (parts : list string) : string :=
  match parts with
  | [] => ""
  | p :: rest => "/" +:+ p +:+ join_path rest
  end.

(** A segment as [_parse_path] yields them: not empty, without a slash. *)
Definition is_segment (p : string) : bool :=
  negb (String.eqb p "") && negb (str_contains "/" p).

End Reach.

(** ** More sample data *)

Module MoreSamples.
Import Client Sample.

(** A client whose delay [time.sleep] refuses. *)
Definition backwards_client : client :=
  {| base_url := "https://localhost:8443"; max_retries := 3;
     retry_delay := FFin (-1) 0 |}.

(** A 200 answer whose body is the empty JSON object. *)
Definition ok_response : http_response :=
  {| status_code := 200; text := "{}"; json_value := Some (JObj ∅) |}.

End MoreSamples.

(** * Properties *)

(** ** Python values and strings *)

Module PyFacts.

Example int_of_digits : py_int "12" = Some 12.
Proof. reflexivity. Qed.

Example int_of_signed_underscored : py_int "-1_2" = Some (-12).
Proof. reflexivity. Qed.

Example int_of_leading_zeros : py_int "007" = Some 7.
Proof. reflexivity. Qed.

Example int_of_letters : py_int "abc" = None.
Proof. reflexivity. Qed.

Example int_of_double_underscore : py_int "1__2" = None.
Proof. reflexivity. Qed.

Example int_of_empty : py_int "" = None.
Proof. reflexivity. Qed.

Example split_keeps_empty_segments :
  split_slash "/users//1/" = [""; "users"; ""; "1"; ""]%string.
Proof. reflexivity. Qed.

Example parse_path_drops_them :
  Server._parse_path (Server.mkRequest Server.GET "/users//1/" None)
  = ["users"; "1"]%string.
Proof. reflexivity. Qed.

Example zero_is_false : truthy (JInt 0) = false.
Proof. reflexivity. Qed.

Example float_one_is_key_one : int_key (JFloat (FFin 1 0)) = Ok (Some 1).
Proof. reflexivity. Qed.

Example float_half_is_no_key : int_key (JFloat (FFin 1 (-1))) = Ok None.
Proof. reflexivity. Qed.

Example true_equals_one : py_eq_int (JBool true) 1 = true.
Proof. reflexivity. Qed.

(** A truthy value is never [None]. *)
Lemma truthy_not_null v : truthy v = true -> v <> JNull.
Proof. intros H ->. discriminate. Qed.

End PyFacts.

(** ** The store *)

Module StoreFacts.
Import Server Store.

Section int_dict_facts.
Context {V : Type}.
Implicit Types (d : list (Z * V)) (k : Z) (v : V).

Lemma od_get_set_eq k v d : od_get k (od_set k v d) = Some v.
Proof.
  induction d as [|[k' v'] d IH]; simpl.
  - now rewrite Z.eqb_refl.
  - destruct (k' =? k) eqn:E; simpl; rewrite E; auto.
Qed.

Lemma od_get_set_ne k k' v d : k <> k' -> od_get k' (od_set k v d) = od_get k' d.
Proof.
  intros Hne. induction d as [|[k0 v0] d IH]; simpl.
  - destruct (k =? k') eqn:E; auto. apply Z.eqb_eq in E. contradiction.
  - destruct (k0 =? k) eqn:E; simpl.
    + apply Z.eqb_eq in E. subst k0.
      destruct (k =? k') eqn:E'; auto. apply Z.eqb_eq in E'. contradiction.
    + now rewrite IH.
Qed.

Lemma od_get_del_eq k d : od_get k (od_del k d) = None.
Proof.
  unfold od_del. induction d as [|[k' v'] d IH]; simpl; auto.
  destruct (k' =? k) eqn:E; simpl; auto. now rewrite E.
Qed.

Lemma od_get_del_ne k k' d : k <> k' -> od_get k' (od_del k d) = od_get k' d.
Proof.
  intros Hne. unfold od_del. induction d as [|[k0 v0] d IH]; simpl; auto.
  destruct (k0 =? k) eqn:E; simpl.
  - apply Z.eqb_eq in E. subst k0.
    destruct (k =? k') eqn:E'; auto. apply Z.eqb_eq in E'. contradiction.
  - now rewrite IH.
Qed.

End int_dict_facts.

Lemma zseq_length a n : length (zseq a n) = n.
Proof. revert a. induction n; intros; simpl; auto. Qed.

Lemma zseq_lookup a n (i : nat) :
  (i < n)%nat -> zseq a n !! i = Some (a + Z.of_nat i).
Proof.
  revert a i. induction n as [|n IH]; intros a i Hi; [lia|].
  destruct i as [|i]; simpl.
  - f_equal. lia.
  - rewrite IH by lia. f_equal. lia.
Qed.

Lemma zseq_lookup_inv a n (i : nat) x :
  zseq a n !! i = Some x -> (i < n)%nat /\ x = a + Z.of_nat i.
Proof.
  intros H. assert (Hi : (i < n)%nat).
  { apply lookup_lt_Some in H. now rewrite zseq_length in H. }
  split; auto. rewrite zseq_lookup in H by auto. congruence.
Qed.

Lemma zseq_app a n m : zseq a (n + m) = zseq a n ++ zseq (a + Z.of_nat n) m.
Proof.
  revert a. induction n as [|n IH]; intros a; simpl.
  - f_equal. lia.
  - rewrite IH. do 3 f_equal. lia.
Qed.

Lemma user_ids_app l1 l2 : user_ids (l1 ++ l2) = user_ids l1 ++ user_ids l2.
Proof. apply omap_app. Qed.

Lemma post_ids_app l1 l2 : post_ids (l1 ++ l2) = post_ids l1 ++ post_ids l2.
Proof. apply omap_app. Qed.

(** The id in the user that [create_user] returns is the counter's value. *)
Lemma create_user_id db name email age now :
  fst (create_user db name email age now) !! "id" = Some (JInt (next_user_id db)).
Proof. reflexivity. Qed.

(** What one operation does to the two counters and which ids it hands
    out. *)
Lemma step_ids db o :
  let r := step db o in
  user_ids (snd r) = JInt <$> zseq (next_user_id db) (length (user_ids (snd r)))
  /\ next_user_id (fst r) = next_user_id db + Z.of_nat (length (user_ids (snd r)))
  /\ post_ids (snd r) = zseq (next_post_id db) (length (post_ids (snd r)))
  /\ next_post_id (fst r) = next_post_id db + Z.of_nat (length (post_ids (snd r))).
Proof.
  destruct o as [name email age now|uid upd|uid|title content author now]; simpl.
  - repeat split; simpl; lia.
  - unfold update_user. destruct (od_get uid (users db)); simpl; repeat split; lia.
  - unfold delete_user. destruct (od_mem uid (users db)); simpl; repeat split; lia.
  - unfold create_post. destruct (author_in_users db author) as [[|]|e]; simpl;
      repeat split; lia.
Qed.

Lemma run_ids ops : forall db,
  let r := run ops db in
  user_ids (snd r) = JInt <$> zseq (next_user_id db) (length (user_ids (snd r)))
  /\ next_user_id (fst r) = next_user_id db + Z.of_nat (length (user_ids (snd r)))
  /\ post_ids (snd r) = zseq (next_post_id db) (length (post_ids (snd r)))
  /\ next_post_id (fst r) = next_post_id db + Z.of_nat (length (post_ids (snd r))).
Proof.
  induction ops as [|o ops IH]; intros db; simpl.
  - repeat split; lia.
  - destruct (step_ids db o) as (Hu1 & Hn1 & Hp1 & Hq1).
    destruct (IH (fst (step db o))) as (Hu2 & Hn2 & Hp2 & Hq2).
    rewrite user_ids_app, post_ids_app, !length_app, !zseq_app, fmap_app.
    rewrite <- Hn1, <- Hq1, <- Hu1, <- Hu2, <- Hp1, <- Hp2.
    repeat split; auto; lia.
Qed.

(** C8. On one store, whatever creates, updates and deletes are run from
    [Database()]: the user ids handed out are 1, 2, 3, ... in creation order,
    and so are the post ids; each list is therefore strictly increasing and no
    id occurs twice, whatever was deleted in between; and the id returned by
    one more [create_user] is greater than every user id handed out before. *)
Theorem ids_increase_from_one (ops : list op) :
  let db := fst (run ops Database_init) in
  let log := snd (run ops Database_init) in
  exists uids pids : list Z,
    user_ids log = JInt <$> uids
    /\ post_ids log = pids
    /\ uids = zseq 1 (length uids)
    /\ pids = zseq 1 (length pids)
    /\ (forall (i j : nat) x y, (i < j)%nat ->
          uids !! i = Some x -> uids !! j = Some y -> x < y)
    /\ (forall (i j : nat) x y, (i < j)%nat ->
          pids !! i = Some x -> pids !! j = Some y -> x < y)
    /\ forall name email age now,
         exists n, fst (create_user db name email age now) !! "id" = Some (JInt n)
                   /\ Forall (fun m => m < n) uids.
Proof.
  intros db log.
  destruct (run_ids ops Database_init) as (Hu & Hn & Hp & Hq).
  fold log in Hu, Hp, Hn, Hq. fold db in Hn, Hq. simpl in Hu, Hn, Hp, Hq.
  exists (zseq 1 (length (user_ids log))), (post_ids log).
  rewrite zseq_length.
  assert (Hinc : forall a n (i j : nat) x y, (i < j)%nat ->
            zseq a n !! i = Some x -> zseq a n !! j = Some y -> x < y).
  { intros a n i j x y Hij Hi Hj.
    apply zseq_lookup_inv in Hi. apply zseq_lookup_inv in Hj. lia. }
  repeat split; auto.
  - intros i j x y. apply Hinc.
  - rewrite Hp. intros i j x y. apply Hinc.
  - intros name email age now. exists (next_user_id db).
    split; [apply create_user_id|].
    apply Forall_forall. intros m Hm.
    apply list_elem_of_lookup in Hm. destruct Hm as [i Hi].
    apply zseq_lookup_inv in Hi. lia.
Qed.

(** Deleting the user with the highest id does not free that id. *)
Example id_not_reused_after_delete name email age now :
  user_ids (snd (run [CreateUser name email age now;
                      CreateUser name email age now;
                      DeleteUser 2;
                      CreateUser name email age now] Database_init))
  = [JInt 1; JInt 2; JInt 3].
Proof. reflexivity. Qed.

(** *** Posts and the users they name *)

(** A value that a lookup finds under the integer key [k] is equal to the
    integer [n] only when [n] is [k]. *)
Lemma int_key_eq (v : json) (k n : Z) :
  int_key v = Ok (Some k) -> py_eq_int v n = true -> n = k.
Proof.
  destruct v as [|b|m|f|s|l|o]; simpl; try discriminate.
  - intros Hk Hn. apply Z.eqb_eq in Hn. congruence.
  - intros Hk Hn. apply Z.eqb_eq in Hn. congruence.
  - destruct f as [|neg|m e]; simpl; try discriminate.
    unfold float_cmp_int. destruct (0 <=? e) eqn:Ee.
    + intros Hk Hn. destruct (m * 2 ^ e ?= n) eqn:E; try discriminate.
      apply Z.compare_eq in E. congruence.
    + destruct (m mod 2 ^ (- e) =? 0) eqn:Em; try discriminate.
      intros Hk Hn. destruct (m ?= n * 2 ^ (- e)) eqn:E; try discriminate.
      apply Z.compare_eq in E. apply Z.eqb_eq in Em.
      assert (Hz : 2 ^ (- e) <> 0).
      { apply Z.leb_gt in Ee. apply Z.pow_nonzero; lia. }
      inversion Hk; subst. now rewrite Z.div_mul.
Qed.

Lemma od_mem_set {V} k k' (v : V) d :
  od_mem k' (od_set k v d) = true -> k' = k \/ od_mem k' d = true.
Proof.
  unfold od_mem. destruct (Z.eq_dec k k') as [->|Hne]; [now left|].
  rewrite od_get_set_ne by auto. now right.
Qed.

Lemma od_mem_del {V} k k' (d : list (Z * V)) :
  od_mem k' (od_del k d) = true -> od_mem k' d = true.
Proof.
  unfold od_mem. destruct (Z.eq_dec k k') as [->|Hne].
  - now rewrite od_get_del_eq.
  - now rewrite od_get_del_ne.
Qed.

Lemma od_values_set {V} k (v x : V) d :
  In x (od_values (od_set k v d)) -> x = v \/ In x (od_values d).
Proof.
  unfold od_values. induction d as [|[k0 v0] d IH]; simpl.
  - intros [H|[]]. now left.
  - destruct (k0 =? k); simpl; intros [H|H]; auto.
    destruct (IH H); auto.
Qed.

Lemma authors_were_users_init : authors_were_users Database_init.
Proof. split; [simpl; lia|]. split; [discriminate | intros p []]. Qed.

Lemma authors_were_users_step db o :
  authors_were_users db -> authors_were_users (fst (step db o)).
Proof.
  intros (H1 & Hu & Hp).
  destruct o as [name email age now|uid upd|uid|title content author now]; simpl.
  - split; [simpl; lia|]. split; simpl.
    + intros k Hk. apply od_mem_set in Hk. destruct Hk as [->|Hk]; [lia|].
      specialize (Hu k Hk). lia.
    + intros p Hin. destruct (Hp p Hin) as (k & Hk & Hb). exists k. split; auto. lia.
  - unfold update_user.
    destruct (od_get uid (users db)) eqn:E; simpl; [|exact (conj H1 (conj Hu Hp))].
    split; [exact H1|]. split; simpl; auto.
    intros k Hk. apply od_mem_set in Hk. destruct Hk as [->|Hk]; auto.
    apply Hu. unfold od_mem. now rewrite E.
  - unfold delete_user.
    destruct (od_mem uid (users db)); simpl; [|exact (conj H1 (conj Hu Hp))].
    split; [exact H1|]. split; simpl; auto.
    intros k Hk. apply od_mem_del in Hk. auto.
  - unfold create_post, author_in_users.
    destruct (int_key author) as [[k|]|e] eqn:Ek; simpl; try exact (conj H1 (conj Hu Hp)).
    destruct (od_mem k (users db)) eqn:Em; simpl; [|exact (conj H1 (conj Hu Hp))].
    split; [exact H1|]. split; simpl; auto.
    intros p Hin. apply od_values_set in Hin. destruct Hin as [->|Hin]; auto.
    exists k. simpl. split; auto.
Qed.

Lemma authors_were_users_run ops : forall db,
  authors_were_users db -> authors_were_users (fst (run ops db)).
Proof.
  induction ops as [|o ops IH]; intros db H; simpl; auto.
  apply IH, authors_were_users_step, H.
Qed.

(** On a store reached from [Database()], an id that was never handed out
    to a user is the author of no post. *)
Lemma never_created_user_has_no_posts ops (n : Z) :
  let db := fst (run ops Database_init) in
  n < 1 \/ next_user_id db <= n -> get_user_posts db n = [].
Proof.
  intros db Hn.
  destruct (authors_were_users_run ops _ authors_were_users_init)
    as (_ & _ & Hp).
  fold db in Hp. unfold get_user_posts.
  induction (od_values (posts db)) as [|p l IH]; simpl; auto.
  destruct (py_eq_int (post_author_id p) n) eqn:E.
  - destruct (Hp p (or_introl eq_refl)) as (k & Hk & Hb).
    apply (int_key_eq _ _ _ Hk) in E. lia.
  - apply IH. intros q Hq. apply Hp. now right.
Qed.

(** After the author is deleted the posts stay, and are still listed. *)
Example posts_outlive_their_author name email age title content now :
  let db := fst (run [CreateUser name email age now;
                      CreatePost title content (JInt 1) now;
                      DeleteUser 1] Database_init) in
  get_user db 1 = None
  /\ post_id <$> get_user_posts db 1 = [1].
Proof. split; reflexivity. Qed.

End StoreFacts.

(** ** The dispatcher *)

Module DispatchFacts.
Import Server Store Sample StoreFacts.

Lemma dict_truthy_union (data user : dict) :
  dict_truthy user = true -> dict_truthy (data ∪ user) = true.
Proof.
  unfold dict_truthy. intros H.
  destruct (Nat.eqb (size (data ∪ user)) 0) eqn:E; auto.
  apply Nat.eqb_eq, map_size_empty_iff in E.
  assert (user = ∅) as ->.
  { apply map_empty. intros k.
    assert (Hk : (data ∪ user) !! k = None) by (rewrite E; apply lookup_empty).
    apply lookup_union_None in Hk. tauto. }
  rewrite map_size_empty in H. discriminate.
Qed.

(** C1 (the code at the failing input). A user is created by one request and
    fetched by the next: the first answer is 201 with id 1, the second is
    404, because [finish_request] builds the handler, and with it a new
    [Database()], for each request. *)
Theorem created_user_not_found_by_next_request (t1 t2 : pyfloat) :
  serve_forever [(t1, mkRequest POST "/users" (Some alice));
                 (t2, mkRequest GET "/users/1" None)]
  = [ [ {| status_code := 201; headers := cors_headers;
           body := Some (message_envelope "User created successfully"
                     (mkdict [("id", JInt 1); ("name", JStr "Alice");
                              ("email", JStr "a@x.com"); ("age", JInt 28);
                              ("created_at", JFloat t1)]%string)) |} ];
      [ {| status_code := 404; headers := cors_headers;
           body := Some (error_envelope "User not found" t2) |} ] ].
Proof. reflexivity. Qed.

(** Whatever was served before, a request finds the store of [Database()]. *)
Lemma every_request_starts_from_empty_store now r earlier :
  last (serve_forever (earlier ++ [(now, r)]))
  = Some (wfile (handle_one_request now r
                   {| db := Database_init; wfile := [] |})).
Proof.
  unfold serve_forever. rewrite List.map_app. simpl. now rewrite last_snoc.
Qed.

(** X1. On one handler object, hence one store, the round trip holds: the user
    fetched by the returned id has the fields supplied at creation, and the
    assigned [id] and [created_at]. *)
Lemma round_trip_on_one_store t1 t2 (data : dict) (s : string) (h : handler) :
  truthy (dict_get data "name") = true ->
  truthy (dict_get data "email") = true ->
  py_int s = Some (next_user_id (db h)) ->
  let user := mkdict [("id", JInt (next_user_id (db h)));
                      ("name", dict_get data "name");
                      ("email", dict_get data "email");
                      ("age", dict_get data "age");
                      ("created_at", JFloat t1)]%string in
  let h1 := do_POST t1 ["users"%string] (Some data) h in
  wfile h1 = wfile h ++ [ {| status_code := 201; headers := cors_headers;
                             body := Some (message_envelope
                                       "User created successfully" user) |} ]
  /\ do_GET t2 ["users"%string; s] h1
     = _send_json_response h1 (entity_envelope user) 200.
Proof.
  intros Hn He Hs user h1. subst h1. unfold do_POST.
  cbn [length Nat.eqb negb part nth andb]. rewrite String.eqb_refl, Hn, He.
  cbn [negb orb andb create_user]. split; [reflexivity|].
  unfold do_GET. cbn [length Nat.eqb negb part nth andb].
  rewrite String.eqb_refl, Hs. unfold get_user. cbn [db with_db _send_json_response users].
  rewrite od_get_set_eq. reflexivity.
Qed.

(** The same for every valid create-user body: the user gets id 1, and the
    next request does not find it. *)
Lemma any_created_user_not_found_by_next_request t1 t2 (data : dict) :
  truthy (dict_get data "name") = true ->
  truthy (dict_get data "email") = true ->
  serve_forever [(t1, mkRequest POST "/users" (Some data));
                 (t2, mkRequest GET "/users/1" None)]
  = [ [ {| status_code := 201; headers := cors_headers;
           body := Some (message_envelope "User created successfully"
                     (mkdict [("id", JInt 1); ("name", dict_get data "name");
                              ("email", dict_get data "email");
                              ("age", dict_get data "age");
                              ("created_at", JFloat t1)]%string)) |} ];
      [ {| status_code := 404; headers := cors_headers;
           body := Some (error_envelope "User not found" t2) |} ] ].
Proof.
  intros Hn He. unfold serve_forever, finish_request, handle_one_request.
  cbn [List.map fst snd command json_body _read_json_body].
  replace (_parse_path (mkRequest POST "/users" (Some data)))
    with ["users"%string] by reflexivity.
  unfold do_POST. cbn [length Nat.eqb negb part nth andb].
  rewrite String.eqb_refl, Hn, He. reflexivity.
Qed.

(** C2 (as amended). [PUT /users/{id}] on an existing user stores the payload
    merged into the record: a key of the payload takes the payload's value,
    [id] and [created_at] included; a key the payload lacks keeps its value;
    no other user, no post and no counter changes; and the answer is 200 with
    the merged record. *)
Theorem put_merges_payload now (s : string) (user_id : Z) (user data : dict)
    (h : handler) :
  py_int s = Some user_id ->
  get_user (db h) user_id = Some user ->
  dict_truthy user = true ->
  let h' := do_PUT now ["users"%string; s] (Some data) h in
  exists merged : dict,
    get_user (db h') user_id = Some merged
    /\ (forall k v, data !! k = Some v -> merged !! k = Some v)
    /\ (forall k, data !! k = None -> merged !! k = user !! k)
    /\ (forall other, other <> user_id ->
          get_user (db h') other = get_user (db h) other)
    /\ posts (db h') = posts (db h)
    /\ next_user_id (db h') = next_user_id (db h)
    /\ next_post_id (db h') = next_post_id (db h)
    /\ wfile h' = wfile h ++ [ {| status_code := 200; headers := cors_headers;
                                  body := Some (message_envelope
                                            "User updated successfully" merged) |} ].
Proof.
  intros Hs Hu Ht h'. exists (data ∪ user). subst h'. unfold do_PUT.
  cbn [length Nat.eqb negb part nth andb]. rewrite String.eqb_refl, Hs.
  cbn [andb]. unfold update_user. unfold get_user in Hu. rewrite Hu.
  rewrite (dict_truthy_union data user Ht).
  unfold get_user. cbn [db with_db _send_json_response users posts
                        next_user_id next_post_id wfile].
  repeat split.
  - apply od_get_set_eq.
  - intros k v Hk. now apply lookup_union_Some_l.
  - intros k Hk. now apply lookup_union_r.
  - intros other Hne. now apply od_get_set_ne.
Qed.

(** C2 (counterexample). The user created from [alice] has id 1; after
    [PUT /users/1] with a payload that has the keys [id] and [created_at],
    the stored record has the payload's values under both. *)
Lemma put_overwrites_id_and_created_at :
  let payload := mkdict [("id", JInt 99); ("created_at", JInt 0)]%string in
  let h' := handle_one_request t0 (mkRequest PUT "/users/1" (Some payload))
              h_alice in
  (get_user (db h_alice) 1 ≫= fun u => u !! "id") = Some (JInt 1)
  /\ (get_user (db h_alice) 1 ≫= fun u => u !! "created_at") = Some (JFloat t0)
  /\ (get_user (db h') 1 ≫= fun u => u !! "id") = Some (JInt 99)
  /\ (get_user (db h') 1 ≫= fun u => u !! "created_at") = Some (JInt 0)
  /\ status_code <$> wfile h' = [201; 200].
Proof. vm_compute. repeat split. Qed.

(** An empty payload leaves the record as it was. *)
Lemma put_empty_payload now s user_id user h :
  py_int s = Some user_id ->
  get_user (db h) user_id = Some user ->
  get_user (db (do_PUT now ["users"%string; s] (Some ∅) h)) user_id = Some user.
Proof.
  intros Hs Hu. unfold do_PUT.
  cbn [length Nat.eqb negb part nth andb]. rewrite String.eqb_refl, Hs.
  cbn [andb]. unfold update_user. unfold get_user in Hu. rewrite Hu.
  rewrite (left_id_L ∅ (∪) user).
  destruct (dict_truthy user); unfold get_user; cbn [db with_db _send_json_response _send_error users];
    apply od_get_set_eq.
Qed.

(** What the list comprehension of [get_user_posts] keeps. *)
Lemma get_user_posts_spec db user_id (p : Post) :
  In p (get_user_posts db user_id)
  <-> In p (od_values (posts db)) /\ py_eq_int (post_author_id p) user_id = true.
Proof. unfold get_user_posts. apply List.filter_In. Qed.

(** C9 (as amended). When the second segment parses as the integer
    [user_id], [GET /users/{id}/posts] writes one response, with status 200,
    whose [data] is the list of the stored posts whose [author_id] equals
    [user_id], in store order, and whose [count] is the length of that list.
    The test says nothing of [users]: the answer is the same whether a user
    with that id exists or not. The list is empty when no stored post has
    that author, and only then: that no user has the id does not make it
    empty. *)
Theorem user_posts_route_is_200 now (s : string) (user_id : Z) (h : handler) :
  py_int s = Some user_id ->
  let found := get_user_posts (db h) user_id in
  let h' := do_GET now ["users"%string; s; "posts"%string] h in
  wfile h' = wfile h ++ [ {| status_code := 200; headers := cors_headers;
                             body := Some (mkdict
                               [("success", JBool true);
                                ("data", JList (JObj <$> (post_dict <$> found)));
                                ("count", JInt (Z.of_nat (length found)))]%string) |} ]
  /\ db h' = db h
  /\ (forall p, In p found <->
        In p (od_values (posts (db h)))
        /\ py_eq_int (post_author_id p) user_id = true)
  /\ ((forall p, In p (od_values (posts (db h))) ->
         py_eq_int (post_author_id p) user_id = false) -> found = []).
Proof.
  intros Hs found h'. subst h'. unfold do_GET.
  cbn [length Nat.eqb negb part nth andb]. rewrite !String.eqb_refl, Hs.
  cbn [andb]. unfold _send_json_response, list_envelope.
  cbn [wfile db]. rewrite length_fmap.
  split; [reflexivity|]. split; [reflexivity|]. split.
  - intros p. apply get_user_posts_spec.
  - intros Hnone. subst found. unfold get_user_posts.
    induction (od_values (posts (db h))) as [|p l IH]; simpl; auto.
    rewrite (Hnone p) by (now left). apply IH. intros q Hq. apply Hnone. now right.
Qed.

(** Case analysis on the comparisons of a path segment with a route name. *)
Ltac split_on_segments :=
  repeat match goal with
         | |- context [String.eqb ?a ?b] => is_var a; destruct (String.eqb a b)
         end.

(** C3 (as amended). A GET, POST, PUT or DELETE request whose method and
    path segments are in no row of the route table is answered by exactly one
    response, 404 with the error [Endpoint not found], and the store is left
    as it was, provided that a POST or PUT request carries a JSON body (the
    body is checked before the route) and that the first segment of a GET
    request is neither [users] nor [posts]. *)
Theorem unmatched_route_is_404 now (r : request) (h : handler) :
  command r <> OPTIONS ->
  route_table (command r) (_parse_path r) = false ->
  (command r = POST \/ command r = PUT -> _read_json_body r <> None) ->
  (command r = GET ->
   is_users (part (_parse_path r) 0) = false
   /\ is_posts (part (_parse_path r) 0) = false) ->
  let h' := handle_one_request now r h in
  wfile h' = wfile h ++ [ {| status_code := 404; headers := cors_headers;
                             body := Some (mkdict
                               [("success", JBool false);
                                ("error", JStr "Endpoint not found");
                                ("timestamp", JFloat now)]%string) |} ]
  /\ db h' = db h.
Proof.
  intros Hopt Hroute Hbody Hget h'. subst h'.
  unfold handle_one_request, _read_json_body in *.
  destruct r as [m p data]. cbn [command json_body] in *.
  set (path_parts := _parse_path _) in *. clearbody path_parts.
  unfold is_users, is_posts in Hget.
  destruct m; try congruence.
  - destruct (Hget eq_refl) as [Hu Hp]. unfold do_GET.
    destruct path_parts as [|a l]; [discriminate|].
    cbn [part nth] in Hu, Hp |- *. cbn [length Nat.eqb]. rewrite Hu, Hp.
    split; reflexivity.
  - destruct data as [data|]; [|exfalso; apply Hbody; auto].
    unfold do_POST. revert Hroute. unfold route_table, is_users, is_posts.
    destruct path_parts as [|a [|b l]]; cbn [length Nat.eqb negb part nth andb];
      split_on_segments; cbn [andb orb]; intros Hroute;
      try discriminate Hroute; split; reflexivity.
  - destruct data as [data|]; [|exfalso; apply Hbody; auto].
    unfold do_PUT. revert Hroute. unfold route_table, is_users.
    destruct path_parts as [|a [|b [|c l]]];
      cbn [length Nat.eqb negb part nth andb];
      split_on_segments; cbn [andb orb]; intros Hroute;
      try discriminate Hroute; split; reflexivity.
  - unfold do_DELETE. revert Hroute. unfold route_table, is_users.
    destruct path_parts as [|a [|b [|c l]]];
      cbn [length Nat.eqb negb part nth andb];
      split_on_segments; cbn [andb orb]; intros Hroute;
      try discriminate Hroute; split; reflexivity.
Qed.

(** C3 (counterexample). [POST /nowhere] without a body is in no row of the
    route table, and its one answer is 400 [Invalid JSON data], not 404. *)
Lemma unmatched_post_without_body_is_400 :
  let r := mkRequest POST "/nowhere" None in
  route_table (command r) (_parse_path r) = false
  /\ wfile (handle_one_request t0 r HTTPRequestHandler_init)
     = [ {| status_code := 400; headers := cors_headers;
            body := Some (mkdict [("success", JBool false);
                                  ("error", JStr "Invalid JSON data");
                                  ("timestamp", JFloat t0)]%string) |} ].
Proof. split; reflexivity. Qed.

(** X24. Under [users], a GET path of three segments whose last is not
    [posts], or of four segments and more, meets no branch: nothing is
    written, and the handler is left as it was. *)
Lemma get_users_unmatched_writes_nothing now (a b : string) rest h :
  rest <> [] \/ String.eqb b "posts" = false ->
  do_GET now ("users"%string :: a :: b :: rest) h = h.
Proof.
  intros H. unfold do_GET. cbn [length Nat.eqb part nth].
  rewrite String.eqb_refl.
  destruct rest as [|c rest]; cbn [length Nat.eqb andb].
  - destruct H as [H|H]; [congruence|]. now rewrite H.
  - reflexivity.
Qed.

(** The same under [posts], from three segments on. *)
Lemma get_posts_unmatched_writes_nothing now (a b : string) rest h :
  do_GET now ("posts"%string :: a :: b :: rest) h = h.
Proof. reflexivity. Qed.

Example get_users_1_x_unanswered :
  finish_request t0 (mkRequest GET "/users/1/x" None) = [].
Proof. reflexivity. Qed.

(** C4 (as amended). [POST /posts] with a body whose [title], [content] and
    [author_id] are all true values passes validation. If the author id is
    hashable and is the key of no user, the one answer is 404
    [Author not found] and the store is unchanged; if it is the key of a
    user, the post is stored under the next post id and the answer is 201. *)
Theorem post_with_true_author_id now (data : dict) (k : option Z) (h : handler) :
  truthy (dict_get data "title") = true ->
  truthy (dict_get data "content") = true ->
  truthy (dict_get data "author_id") = true ->
  int_key (dict_get data "author_id") = Ok k ->
  let h' := do_POST now ["posts"%string] (Some data) h in
  ((forall n, k = Some n -> get_user (db h) n = None) ->
   wfile h' = wfile h ++ [ {| status_code := 404; headers := cors_headers;
                              body := Some (mkdict
                                [("success", JBool false);
                                 ("error", JStr "Author not found");
                                 ("timestamp", JFloat now)]%string) |} ]
   /\ db h' = db h)
  /\ (forall n user, k = Some n -> get_user (db h) n = Some user ->
      let post := {| post_id := next_post_id (db h);
                     post_title := dict_get data "title";
                     post_content := dict_get data "content";
                     post_author_id := dict_get data "author_id";
                     post_created_at := now |} in
      wfile h' = wfile h ++ [ {| status_code := 201; headers := cors_headers;
                                 body := Some (message_envelope
                                           "Post created successfully"
                                           (post_dict post)) |} ]
      /\ get_post (db h') (next_post_id (db h)) = Some post
      /\ next_post_id (db h') = next_post_id (db h) + 1).
Proof.
  intros Ht Hc Ha Hk h'. subst h'. unfold do_POST.
  cbn [length Nat.eqb negb part nth andb]. rewrite String.eqb_refl.
  replace (String.eqb "posts" "users") with false by reflexivity.
  cbn [andb]. rewrite Ht, Hc, Ha. cbn [negb orb].
  unfold create_post, author_in_users. rewrite Hk. split.
  - intros Hnone. destruct k as [n|]; [|split; reflexivity].
    unfold od_mem. specialize (Hnone n eq_refl). unfold get_user in Hnone.
    rewrite Hnone. split; reflexivity.
  - intros n user -> Hu. unfold od_mem. unfold get_user in Hu. rewrite Hu.
    unfold get_post. cbn [db with_db _send_json_response posts next_post_id wfile].
    split; [reflexivity|]. split; [apply od_get_set_eq | reflexivity].
Qed.

(** C4 (counterexample). With [author_id] 0 the body has all three keys and
    a non-null author id, and the answer is the 400 of validation, although
    no user has id 0. *)
Lemma author_id_zero_is_a_validation_error :
  let data := post_by (JInt 0) in
  data !! "author_id" = Some (JInt 0)
  /\ get_user (db h_alice) 0 = None
  /\ do_POST t0 ["posts"%string] (Some data) h_alice
     = _send_error h_alice "Title, content, and author_id are required" 400 t0.
Proof. vm_compute. repeat split. Qed.

(** An unhashable author id (a JSON array) is neither: the membership test
    raises and the answer is 500. *)
Example author_id_list_is_500 :
  status_code <$> wfile (do_POST t0 ["posts"%string]
                           (Some (post_by (JList [JInt 1]))) HTTPRequestHandler_init)
  = [500].
Proof. reflexivity. Qed.

(** C2 (witness): renaming user 1 of [h_alice]. *)
Lemma put_merges_payload_witness :
  py_int "1" = Some 1
  /\ get_user (db h_alice) 1 = Some alice_record
  /\ dict_truthy alice_record = true
  /\ exists merged,
       get_user (db (do_PUT t0 ["users"; "1"]%string (Some rename) h_alice)) 1
       = Some merged
       /\ merged !! "name" = Some (JStr "Alicia")
       /\ merged !! "email" = Some (JStr "a@x.com").
Proof.
  split; [reflexivity|]. split; [reflexivity|]. split; [reflexivity|].
  destruct (put_merges_payload t0 "1" 1 alice_record rename h_alice
              eq_refl eq_refl eq_refl)
    as (merged & Hget & Hnew & Hold & _).
  exists merged. split; [exact Hget|]. split.
  - apply Hnew. reflexivity.
  - rewrite Hold by reflexivity. reflexivity.
Defined.

(** C9 (witness): the posts of a user id that was never handed out, on a
    store that holds a post of user 1. *)
Lemma user_posts_route_is_200_witness :
  py_int "7" = Some 7
  /\ get_user (db h_alice_post) 7 = None
  /\ status_code <$> wfile (do_GET t0 ["users"; "7"; "posts"]%string h_alice_post)
     = [201; 201; 200].
Proof.
  split; [reflexivity|]. split; [reflexivity|].
  destruct (user_posts_route_is_200 t0 "7" 7 h_alice_post eq_refl) as [H _].
  rewrite H. reflexivity.
Defined.

(** C9 (counterexample): after [DELETE /users/1] no user has id 1, and
    [GET /users/1/posts] answers 200 with the post that user 1 wrote: the
    list of a user that does not exist is not empty. *)
Lemma deleted_author_posts_are_listed :
  let h := handle_one_request t0 (mkRequest DELETE "/users/1" None)
             h_alice_post in
  let h' := handle_one_request t0 (mkRequest GET "/users/1/posts" None) h in
  get_user (db h) 1 = None
  /\ length (get_user_posts (db h) 1) = 1%nat
  /\ status_code <$> wfile h' = [201; 201; 200; 200]
  /\ wfile h' !! 3%nat
     = Some {| status_code := 200; headers := cors_headers;
               body := Some (mkdict
                 [("success", JBool true);
                  ("data", JList [JObj (mkdict
                     [("id", JInt 1); ("title", JStr "T");
                      ("content", JStr "C"); ("author_id", JInt 1);
                      ("created_at", JFloat t0)]%string)]);
                  ("count", JInt 1)]%string) |}.
Proof. vm_compute. repeat split. Qed.

(** X12. On a store reached from [Database()] by the store's operations, the
    posts of a user id that was never handed out are the empty list, with
    status 200. *)
Lemma never_created_user_gets_empty_list now ops (s : string) (n : Z) h :
  db h = fst (run ops Database_init) ->
  py_int s = Some n ->
  n < 1 \/ next_user_id (db h) <= n ->
  do_GET now ["users"%string; s; "posts"%string] h
  = _send_json_response h (list_envelope []) 200.
Proof.
  intros Hdb Hs Hn. unfold do_GET.
  cbn [length Nat.eqb negb part nth andb]. rewrite !String.eqb_refl, Hs.
  cbn [andb]. rewrite Hdb in Hn |- *.
  now rewrite (never_created_user_has_no_posts ops n Hn).
Qed.

(** C3 (witness): [POST /nowhere] with a body. *)
Lemma unmatched_route_is_404_witness :
  let r := mkRequest POST "/nowhere" (Some alice) in
  command r <> OPTIONS
  /\ route_table (command r) (_parse_path r) = false
  /\ (command r = POST \/ command r = PUT -> _read_json_body r <> None)
  /\ (command r = GET ->
      is_users (part (_parse_path r) 0) = false
      /\ is_posts (part (_parse_path r) 0) = false)
  /\ status_code <$> wfile (handle_one_request t0 r HTTPRequestHandler_init)
     = [404].
Proof.
  assert (H1 : POST <> OPTIONS) by discriminate.
  assert (H3 : POST = POST \/ POST = PUT -> Some alice <> None)
    by (intros _; discriminate).
  assert (H4 : POST = GET ->
               is_users (part (_parse_path (mkRequest POST "/nowhere" (Some alice))) 0) = false
               /\ is_posts (part (_parse_path (mkRequest POST "/nowhere" (Some alice))) 0) = false)
    by discriminate.
  split; [exact H1|]. split; [reflexivity|]. split; [exact H3|].
  split; [exact H4|].
  destruct (unmatched_route_is_404 t0 (mkRequest POST "/nowhere" (Some alice))
              HTTPRequestHandler_init H1 eq_refl H3 H4) as [H _].
  rewrite H. reflexivity.
Defined.

(** C4 (witness): a post by author 7 on a store whose only user is 1. *)
Lemma post_with_true_author_id_witness :
  truthy (dict_get (post_by (JInt 7)) "title") = true
  /\ truthy (dict_get (post_by (JInt 7)) "content") = true
  /\ truthy (dict_get (post_by (JInt 7)) "author_id") = true
  /\ int_key (dict_get (post_by (JInt 7)) "author_id") = Ok (Some 7)
  /\ status_code <$> wfile (do_POST t0 ["posts"%string]
                              (Some (post_by (JInt 7))) h_alice)
     = [201; 404].
Proof.
  split; [reflexivity|]. split; [reflexivity|]. split; [reflexivity|].
  split; [reflexivity|].
  destruct (post_with_true_author_id t0 (post_by (JInt 7)) (Some 7) h_alice
              eq_refl eq_refl eq_refl eq_refl) as [H _].
  destruct H as [H _].
  - intros n Hn. inversion Hn; subst. reflexivity.
  - rewrite H. reflexivity.
Defined.

End DispatchFacts.

(** ** The client *)

Module ClientFacts.
Import Client Sample.

Section runs.
Variable env : runtime.
Variable self : client.

(** [_request] performs one exchange and returns the dict [outcome] gives
    for it; it raises nothing. *)
Lemma request_run method endpoint w :
  _request env self method endpoint w
  = (Ok (outcome (net env (exchanges w))),
     after_request method (request_url self endpoint) w).
Proof.
  unfold _request, try_except, bind, session_request, lift, ret, outcome,
    after_request, request_url.
  destruct (net env (exchanges w)) as [response|e]; [|reflexivity].
  destruct (py_update _ _); reflexivity.
Qed.

Lemma handlers_have_no_status e : request_handlers e !! "_status_code" = None.
Proof.
  unfold request_handlers.
  destruct (is_SSLError (exn_cls e)), (is_ConnectionError (exn_cls e)),
    (is_Timeout (exn_cls e)); reflexivity.
Qed.

Lemma status_info_code response :
  status_info response !! "_status_code" = Some (JInt (status_code response)).
Proof. reflexivity. Qed.

Lemma status_info_success response :
  status_info response !! "_success"
  = Some (JBool (status_code response <? 400)).
Proof. reflexivity. Qed.

Lemma status_info_other response k :
  k <> "_status_code"%string -> k <> "_success"%string ->
  status_info response !! k = None.
Proof.
  intros H1 H2. unfold status_info, mkdict. simpl.
  rewrite !lookup_insert_ne by congruence. apply lookup_empty.
Qed.

(** The [_status_code] of an outcome is the integer status of the response,
    or is missing. *)
Lemma outcome_status x :
  outcome x !! "_status_code" = None
  \/ exists n, outcome x !! "_status_code" = Some (JInt n).
Proof.
  destruct x as [response|e]; simpl; [|left; apply handlers_have_no_status].
  destruct (json_value response) as [[]|]; simpl;
    try (left; apply handlers_have_no_status);
    right; exists (status_code response);
    apply lookup_union_Some_l, status_info_code.
Qed.

(** On such a dict the retry test raises nothing and is [triggers]. *)
Lemma should_retry_triggers (res : dict) :
  (res !! "_status_code" = None
   \/ exists n, res !! "_status_code" = Some (JInt n)) ->
  should_retry env res = Ok (triggers env res).
Proof.
  intros H. unfold should_retry, triggers, status_at_least_500, error_text,
    dict_get_default.
  destruct H as [H|[n H]]; rewrite H; simpl; [reflexivity|].
  destruct (500 <=? n); reflexivity.
Qed.

(** One turn of the loop: the exchange, the test, then either the pause and
    the next turn, or the return. *)
Lemma retry_step method endpoint attempt rest last w :
  let res := outcome (net env (exchanges w)) in
  let url := request_url self endpoint in
  retry_loop env self method endpoint (attempt :: rest) last w
  = if triggers env res && (attempt <? max_retries self - 1) then
      match sleep_check env (retry_delay self) with
      | Some e =>
          (Raise e,
           {| exchanges := S (exchanges w);
              trace := (trace w ++ [EvRequest method url])
                       ++ [EvPrint (attempt + 1) (retry_delay self)] |})
      | None =>
          retry_loop env self method endpoint rest (Some res)
            {| exchanges := S (exchanges w);
               trace := ((trace w ++ [EvRequest method url])
                         ++ [EvPrint (attempt + 1) (retry_delay self)])
                        ++ [EvSleep (retry_delay self)] |}
      end
    else (Ok res, after_request method url w).
Proof.
  intros res url. cbn [retry_loop]. unfold bind at 1. rewrite request_run.
  fold res url. unfold bind at 1, lift.
  rewrite (should_retry_triggers res (outcome_status _)).
  destruct (triggers env res && (attempt <? max_retries self - 1)); [|reflexivity].
  unfold bind, emit, time_sleep. cbn [exchanges trace after_request].
  destruct (sleep_check env (retry_delay self)); reflexivity.
Qed.

Lemma triggers_503 (res : dict) :
  res !! "_status_code" = Some (JInt 503) -> triggers env res = true.
Proof. intros H. unfold triggers, status_at_least_500. now rewrite H. Qed.

(** C5. With [max_retries] 3, a delay that [time.sleep] accepts, and every
    attempt's outcome carrying the status code 503: the call performs exactly
    three exchanges, sleeps [retry_delay] after the first and after the
    second and not after the third, and returns the dict of the third
    attempt as [_request] produced it. *)
Theorem three_attempts_on_503 method endpoint w :
  max_retries self = 3 ->
  sleep_check env (retry_delay self) = None ->
  (forall i, outcome (net env i) !! "_status_code" = Some (JInt 503)) ->
  let url := request_url self endpoint in
  let d := retry_delay self in
  _request_with_retry env self method endpoint w
  = (Ok (outcome (net env (S (S (exchanges w))))),
     {| exchanges := S (S (S (exchanges w)));
        trace := trace w ++ [EvRequest method url; EvPrint 1 d; EvSleep d;
                             EvRequest method url; EvPrint 2 d; EvSleep d;
                             EvRequest method url] |}).
Proof.
  intros Hmax Hsleep H503 url d. unfold _request_with_retry.
  rewrite Hmax. change (py_range 3) with [0; 1; 2].
  rewrite retry_step, (triggers_503 _ (H503 _)), Hmax, Hsleep.
  cbn [andb Z.ltb Z.sub Z.add Z.compare Z.opp Z.pos_sub Pos.pred_double
       after_request exchanges trace].
  rewrite retry_step, (triggers_503 _ (H503 _)), Hmax, Hsleep.
  cbn [andb Z.ltb Z.sub Z.add Z.compare Z.opp Z.pos_sub Pos.pred_double
       Pos.compare Pos.compare_cont after_request exchanges trace].
  rewrite retry_step, (triggers_503 _ (H503 _)), Hmax.
  cbn [andb Z.ltb Z.sub Z.add Z.compare Z.opp Z.pos_sub Pos.pred_double
       Pos.compare Pos.compare_cont after_request exchanges trace].
  unfold after_request. cbn [exchanges trace].
  rewrite <- !app_assoc. reflexivity.
Qed.

(** The exchanges of the loop: never fewer than before, at most one per
    attempt left. *)
Lemma retry_loop_bound method endpoint attempts : forall last w,
  (exchanges w
   <= exchanges (snd (retry_loop env self method endpoint attempts last w))
   <= exchanges w + length attempts)%nat.
Proof.
  induction attempts as [|a rest IH]; intros last w.
  - simpl. destruct last; simpl; lia.
  - rewrite retry_step. cbv zeta.
    destruct (triggers env _ && (a <? max_retries self - 1)).
    + destruct (sleep_check env (retry_delay self)).
      * simpl. lia.
      * match goal with
        | |- context [retry_loop _ _ _ _ rest ?l ?w2] => specialize (IH l w2)
        end.
        cbn [exchanges] in IH. simpl length. lia.
    + simpl. lia.
Qed.

(** A value the loop returns is the local [result] it started with, or the
    outcome of an exchange it performed. *)
Lemma retry_loop_returns method endpoint attempts : forall last w d w',
  retry_loop env self method endpoint attempts last w = (Ok d, w') ->
  last = Some d
  \/ exists i, (exchanges w <= i < exchanges w')%nat /\ d = outcome (net env i).
Proof.
  induction attempts as [|a rest IH]; intros last w d w' H.
  - simpl in H. destruct last; [left|]; unfold ret, raise in H; congruence.
  - right. rewrite retry_step in H. cbv zeta in H.
    destruct (triggers env _ && (a <? max_retries self - 1)).
    + destruct (sleep_check env (retry_delay self)); [discriminate|].
      match type of H with
      | retry_loop _ _ _ _ rest ?l ?w2 = _ =>
          pose proof (retry_loop_bound method endpoint rest l w2) as Hb
      end.
      apply IH in H as Hr. rewrite H in Hb. cbn [exchanges snd] in Hb, Hr.
      destruct Hr as [Hr|[i [Hi Hd]]].
      * exists (exchanges w). split; [lia|congruence].
      * exists i. split; [lia|auto].
    + inversion H; subst. exists (exchanges w). cbn [after_request exchanges].
      split; [lia|reflexivity].
Qed.

(** With a delay that [time.sleep] accepts, the loop returns as soon as it
    has an attempt to make or a [result] to give. *)
Lemma retry_loop_total method endpoint attempts : forall last w,
  sleep_check env (retry_delay self) = None ->
  attempts <> [] \/ is_Some last ->
  exists d w', retry_loop env self method endpoint attempts last w = (Ok d, w').
Proof.
  induction attempts as [|a rest IH]; intros last w Hsleep Hne.
  - destruct Hne as [Hne|[d Hd]]; [congruence|]. subst last. simpl.
    exists d, w. reflexivity.
  - rewrite retry_step. cbv zeta. rewrite Hsleep.
    destruct (triggers env _ && (a <? max_retries self - 1)).
    + apply IH; auto.
    + eexists _, _. reflexivity.
Qed.

Lemma py_range_nil n : n <= 0 -> py_range n = [].
Proof. intros H. unfold py_range. now replace (Z.to_nat n) with O by lia. Qed.

Lemma py_range_length n : length (py_range n) = Z.to_nat n.
Proof. unfold py_range. now rewrite length_fmap, length_seq. Qed.

(** C10. With [max_retries] 0 (or less) the call performs no exchange and
    raises [UnboundLocalError]; whenever the call returns a dict,
    [max_retries] is at least 1 and the dict is the outcome of one of the at
    most [max_retries] exchanges the call performed; and with [max_retries]
    at least 1 and a delay that [time.sleep] accepts, the call does return a
    dict. *)
Theorem retry_returns_only_after_an_attempt method endpoint w :
  (max_retries self <= 0 ->
   exists msg, _request_with_retry env self method endpoint w
               = (Raise (Exn UnboundLocalError msg), w))
  /\ (forall d w',
        _request_with_retry env self method endpoint w = (Ok d, w') ->
        1 <= max_retries self
        /\ exists i, (exchanges w <= i < exchanges w')%nat
                     /\ (i < exchanges w + Z.to_nat (max_retries self))%nat
                     /\ d = outcome (net env i))
  /\ (1 <= max_retries self ->
      sleep_check env (retry_delay self) = None ->
      exists d w', _request_with_retry env self method endpoint w = (Ok d, w')).
Proof.
  unfold _request_with_retry. split; [|split].
  - intros H. rewrite (py_range_nil _ H). simpl. eexists. reflexivity.
  - intros d w' H. split.
    + destruct (Z_le_gt_dec 1 (max_retries self)) as [Hle|Hgt]; auto.
      rewrite py_range_nil in H by lia. simpl in H. discriminate.
    + pose proof (retry_loop_bound method endpoint
                    (py_range (max_retries self)) None w) as Hb.
      rewrite H, py_range_length in Hb. cbn [snd] in Hb.
      apply retry_loop_returns in H. destruct H as [H|[i [Hi Hd]]]; [discriminate|].
      exists i. repeat split; auto; lia.
  - intros Hmax Hsleep. apply retry_loop_total; auto. left.
    intros Hnil. apply (f_equal length) in Hnil.
    rewrite py_range_length in Hnil. simpl in Hnil. lia.
Qed.

(** How many exchanges the loop performs over the attempts
    [a, a + 1, ..., max_retries - 1]: it goes on exactly while the outcome
    triggers and an attempt is left. *)
Lemma retry_loop_count method endpoint (len : nat) : forall (a : nat) last w,
  sleep_check env (retry_delay self) = None ->
  Z.of_nat (a + len) = max_retries self ->
  exists N : nat,
    exchanges (snd (retry_loop env self method endpoint
                      (Z.of_nat <$> seq a len) last w))
    = (exchanges w + N)%nat
    /\ (N <= len)%nat
    /\ ((1 <= len)%nat -> (1 <= N)%nat)
    /\ (forall j, (S j < N)%nat ->
          triggers env (outcome (net env (exchanges w + j))) = true)
    /\ ((1 <= N)%nat -> (N < len)%nat ->
          triggers env (outcome (net env (exchanges w + N - 1))) = false).
Proof.
  induction len as [|len IH]; intros a last w Hsleep Hmax.
  - exists O. simpl. destruct last; simpl; repeat split; try lia; intros; lia.
  - cbn [seq fmap list_fmap]. rewrite retry_step. cbv zeta. rewrite Hsleep.
    destruct (triggers env (outcome (net env (exchanges w)))) eqn:Etr;
      cbn [andb].
    + destruct (Z.of_nat a <? max_retries self - 1) eqn:Ebudget.
      * apply Z.ltb_lt in Ebudget.
        match goal with
        | |- context [retry_loop _ _ _ _ _ ?l ?w2] =>
            destruct (IH (S a) l w2 Hsleep) as (N & HN & Hle & Hge & Hall & Hlast)
        end; [lia|].
        cbn [exchanges] in HN, Hall, Hlast.
        exists (S N). rewrite HN. repeat split; try lia.
        -- intros j Hj. destruct j as [|j].
           ++ now rewrite Nat.add_0_r.
           ++ replace (exchanges w + S j)%nat with (S (exchanges w) + j)%nat by lia.
              apply Hall. lia.
        -- intros _ HSN.
           replace (exchanges w + S N - 1)%nat
             with (S (exchanges w) + N - 1)%nat by lia.
           apply Hlast; lia.
      * apply Z.ltb_ge in Ebudget. exists 1%nat. cbn [snd after_request exchanges].
        repeat split; try lia; intros; lia.
    + exists 1%nat. cbn [snd after_request exchanges].
      repeat split; try lia.
      intros _ _. replace (exchanges w + 1 - 1)%nat with (exchanges w) by lia.
      exact Etr.
Qed.

Lemma contains_connection_error msg :
  str_contains "Connection Error" ("Connection Error: " +:+ msg) = true.
Proof. reflexivity. Qed.

Lemma contains_timeout msg :
  str_contains "Timeout" ("Timeout Error: " +:+ msg) = true.
Proof. reflexivity. Qed.

(** C6 (as amended). With a delay that [time.sleep] accepts and
    [max_retries] at least 1, the call makes between 1 and [max_retries]
    exchanges; every attempt that was followed by another had an outcome that
    triggers, and if the call stopped with attempts left, its last outcome
    does not trigger: the request is re-issued exactly when an attempt is
    left and the outcome triggers. An outcome triggers when its status code
    is at least 500 or the text of its [error] field contains
    [Connection Error] or [Timeout]. So a connection fault and a timeout
    always trigger; a TLS fault triggers exactly when its error text
    contains one of the two; and a response whose body is a JSON object
    triggers exactly when its status is at least 500 or the body's [error]
    text contains one of the two. *)
Theorem reissued_iff_attempt_left_and_triggers method endpoint :
  sleep_check env (retry_delay self) = None ->
  1 <= max_retries self ->
  let N := exchanges (snd (_request_with_retry env self method endpoint
                             world0)) in
  ((1 <= N <= Z.to_nat (max_retries self))%nat
   /\ (forall i, (S i < N)%nat -> triggers env (outcome (net env i)) = true)
   /\ ((N < Z.to_nat (max_retries self))%nat ->
       triggers env (outcome (net env (N - 1))) = false))
  /\ (forall e, is_SSLError (exn_cls e) = false ->
        is_ConnectionError (exn_cls e) = true ->
        triggers env (outcome (Failed e)) = true)
  /\ (forall e, is_ConnectionError (exn_cls e) = false ->
        is_Timeout (exn_cls e) = true ->
        triggers env (outcome (Failed e)) = true)
  /\ (forall e, is_SSLError (exn_cls e) = true ->
        triggers env (outcome (Failed e))
        = str_contains "Connection Error" ("SSL Error: " +:+ exn_msg e)
          || str_contains "Timeout" ("SSL Error: " +:+ exn_msg e))
  /\ (forall response (o : dict), json_value response = Some (JObj o) ->
        triggers env (outcome (Responded response))
        = (500 <=? status_code response)
          || str_contains "Connection Error"
               (py_str env (dict_get_default o "error" (JStr "")))
          || str_contains "Timeout"
               (py_str env (dict_get_default o "error" (JStr "")))).
Proof.
  intros Hsleep Hmax N. split; [|split; [|split; [|split]]].
  - subst N. unfold _request_with_retry, py_range.
    destruct (retry_loop_count method endpoint (Z.to_nat (max_retries self))
                O None world0 Hsleep) as (N & HN & Hle & Hge & Hall & Hlast);
      [lia|].
    rewrite HN. cbn [world0 exchanges Nat.add] in *.
    assert (H1 : (1 <= N)%nat) by (apply Hge; lia).
    split; [lia|]. split; [exact Hall|].
    intros Hlt. apply Hlast; lia.
  - intros e Hssl Hconn. unfold outcome, request_handlers. rewrite Hssl, Hconn.
    reflexivity.
  - intros e Hconn Htime. unfold outcome, request_handlers. rewrite Hconn, Htime.
    assert (Hssl : is_SSLError (exn_cls e) = false)
      by (destruct (exn_cls e); try reflexivity; discriminate).
    rewrite Hssl. unfold triggers.
    replace (error_text env _) with ("Timeout Error: " +:+ exn_msg e)%string
      by reflexivity.
    rewrite contains_timeout. apply orb_true_r.
  - intros e Hssl. unfold outcome, request_handlers. rewrite Hssl. reflexivity.
  - intros response o Hjson. unfold outcome. rewrite Hjson. cbn [py_update].
    unfold triggers, status_at_least_500, error_text, dict_get_default.
    rewrite (lookup_union_Some_l _ _ _ _ (status_info_code response)).
    rewrite lookup_union_r by (now apply status_info_other).
    reflexivity.
Qed.

(** [_request] never raises and performs exactly one exchange. *)
Lemma request_returns_a_dict method endpoint w :
  exists d, _request env self method endpoint w
            = (Ok d, after_request method (request_url self endpoint) w).
Proof. rewrite request_run. eexists. reflexivity. Qed.

(** X18. When a response arrives whose body is not JSON or is a JSON object,
    the returned dict has the status code and the success flag, which
    replace keys of the same names in the body; the other keys of the body
    are kept, and a body that is not JSON is kept under [raw_response]. *)
Lemma response_status_attached response :
  json_value response = None \/ (exists o, json_value response = Some (JObj o)) ->
  let d := outcome (Responded response) in
  d !! "_status_code" = Some (JInt (status_code response))
  /\ d !! "_success" = Some (JBool (status_code response <? 400))
  /\ (json_value response = None ->
      d !! "raw_response" = Some (JStr (text response)))
  /\ (forall o k, json_value response = Some (JObj o) ->
      k <> "_status_code"%string -> k <> "_success"%string -> d !! k = o !! k).
Proof.
  intros H d. subst d. unfold outcome.
  destruct H as [H|[o H]]; rewrite H; cbn [py_update].
  - split; [|split; [|split]]; try reflexivity. intros o k Ho. discriminate.
  - split; [|split; [|split]].
    + apply lookup_union_Some_l, status_info_code.
    + apply lookup_union_Some_l, status_info_success.
    + discriminate.
    + intros o' k Ho Hk1 Hk2. inversion Ho; subst.
      apply lookup_union_r. now apply status_info_other.
Qed.

End runs.

(** The faults in the order of the [except] clauses: a class under both
    [ConnectionError] and [Timeout] is a connection error. *)
Example connect_timeout_is_a_connection_error msg :
  outcome (Failed (Exn ConnectTimeout msg)) !! "error"
  = Some (JStr ("Connection Error: " +:+ msg)).
Proof. reflexivity. Qed.

Example ssl_error_comes_first msg :
  outcome (Failed (Exn SSLError msg)) !! "error"
  = Some (JStr ("SSL Error: " +:+ msg)).
Proof. reflexivity. Qed.

(** C7 (the code at the failing input). A response arrives whose body is a
    JSON array: [update] is not a method of a list, the [AttributeError] is
    caught by the last [except] clause, and the returned dict is the generic
    error, without [_status_code] and without [_success]. *)
Theorem json_array_body_loses_the_status status txt (l : list json)
    (self : client) method endpoint w :
  let answer := Responded {| status_code := status; text := txt;
                             json_value := Some (JList l) |} in
  let d := mkdict
    [("success", JBool false);
     ("error", JStr "Request Error: 'list' object has no attribute 'update'")
    ]%string in
  _request (always answer) self method endpoint w
  = (Ok d, after_request method (request_url self endpoint) w)
  /\ d !! "_status_code" = None
  /\ d !! "_success" = None.
Proof. intros answer d. rewrite request_run. repeat split. Qed.

(** C5 (witness): the default client against a server that always answers
    503. *)
Lemma three_attempts_on_503_witness :
  max_retries local_client = 3
  /\ sleep_check (always unavailable) (retry_delay local_client) = None
  /\ (forall i, outcome (net (always unavailable) i) !! "_status_code"
                = Some (JInt 503))
  /\ exchanges (snd (_request_with_retry (always unavailable) local_client
                       "GET" "users" world0)) = 3%nat
  /\ sleeps_of (trace (snd (_request_with_retry (always unavailable)
                              local_client "GET" "users" world0)))
     = [FFin 1 0; FFin 1 0].
Proof.
  split; [reflexivity|]. split; [reflexivity|]. split; [intros i; reflexivity|].
  rewrite (three_attempts_on_503 (always unavailable) local_client "GET" "users"
             world0 eq_refl eq_refl (fun i => eq_refl)).
  split; reflexivity.
Defined.

(** C6 (counterexample). A 404 response whose body has the error text
    [Request Timeout] is not among the outcomes the specification retries,
    and the default client re-issues the request until its three attempts
    are spent. *)
Lemma response_404_with_timeout_text_is_retried :
  let x := not_found_with "Request Timeout" in
  retried_by_specification (kind_of x) = false
  /\ requests_of (trace (snd (_request_with_retry (always x) local_client
                                "GET" "users" world0)))
     = [EvRequest "GET" "https://localhost:8443/users";
        EvRequest "GET" "https://localhost:8443/users";
        EvRequest "GET" "https://localhost:8443/users"].
Proof. split; reflexivity. Qed.

(** The same for a TLS fault whose message has the word. *)
Example tls_fault_with_timeout_text_is_retried :
  let x := Failed (Exn SSLError "handshake: Timeout") in
  kind_of x = tls_error
  /\ exchanges (snd (_request_with_retry (always x) local_client
                       "GET" "users" world0)) = 3%nat.
Proof. split; reflexivity. Qed.

(** A TLS fault without the two texts, and a plain 404, are not retried. *)
Example tls_fault_is_not_retried :
  exchanges (snd (_request_with_retry
                    (always (Failed (Exn SSLError "certificate verify failed")))
                    local_client "GET" "users" world0)) = 1%nat.
Proof. reflexivity. Qed.

Example plain_404_is_not_retried :
  exchanges (snd (_request_with_retry (always (not_found_with "User not found"))
                    local_client "GET" "users/9" world0)) = 1%nat.
Proof. reflexivity. Qed.

(** C6 (witness): the default client against a server that always answers
    503. *)
Lemma reissued_iff_attempt_left_and_triggers_witness :
  sleep_check (always unavailable) (retry_delay local_client) = None
  /\ 1 <= max_retries local_client
  /\ (1 <= exchanges (snd (_request_with_retry (always unavailable)
                             local_client "GET" "users" world0))
      <= Z.to_nat (max_retries local_client))%nat.
Proof.
  split; [reflexivity|]. split; [discriminate|].
  assert (Hmax : 1 <= max_retries local_client) by discriminate.
  destruct (reissued_iff_attempt_left_and_triggers (always unavailable)
              local_client "GET" "users" eq_refl Hmax) as [[H _] _].
  exact H.
Defined.

(** With [max_retries] 0 nothing is sent and the call raises. *)
Example no_attempt_no_result :
  _request_with_retry (always unavailable)
    {| base_url := "https://localhost:8443"; max_retries := 0;
       retry_delay := FFin 1 0 |} "GET" "users" world0
  = (Raise (Exn UnboundLocalError
       "cannot access local variable 'result' where it is not associated with a value"),
     world0).
Proof. reflexivity. Qed.

End ClientFacts.

(** ** More on the dispatcher and the store *)

Module ServerMore.
Import Server Store Sample StoreFacts Reach.

(** Case analysis on every test and every [match] of a handler body. *)
Ltac break_branches :=
  repeat match goal with
         | |- context [if ?b then _ else _] => destruct b eqn:?
         | |- context [match ?x with _ => _ end] => destruct x eqn:?
         end.

(** What a handler leaves behind: the handler as it was, which only [do_GET]
    can do, or the handler with one more response, of a known status and
    with an envelope that agrees with it. *)
Lemma handler_shape now (r : request) (h : handler) :
  (command r = GET /\ handle_one_request now r h = h)
  \/ exists db' resp,
       handle_one_request now r h = {| db := db'; wfile := wfile h ++ [resp] |}
       /\ known_status (status_code resp) = true
       /\ envelope_agrees resp.
Proof.
  destruct r as [m p data]. unfold handle_one_request, _read_json_body.
  cbn [command json_body]. set (path_parts := _parse_path _). clearbody path_parts.
  destruct m.
  - unfold do_GET. break_branches;
      first [ left; split; reflexivity
            | right; eexists _, _; split; [reflexivity|]; split; reflexivity ].
  - right. unfold do_POST. break_branches;
      eexists _, _; (split; [reflexivity|]); split; reflexivity.
  - right. unfold do_PUT. break_branches;
      eexists _, _; (split; [reflexivity|]); split; reflexivity.
  - right. unfold do_DELETE. break_branches;
      eexists _, _; (split; [reflexivity|]); split; reflexivity.
  - right. unfold do_OPTIONS. eexists _, _. split; [reflexivity|]. split; reflexivity.
Qed.

(** X2. [do_GET] is a pure read: whatever the path, the store after it is
    the store before it. *)
Theorem get_never_changes_the_store now (path_parts : list string)
    (h : handler) :
  db (do_GET now path_parts h) = db h.
Proof. unfold do_GET. break_branches; reflexivity. Qed.

(** [_read_json_body] raises exactly when there is a [Content-Length]
    header that [int()] refuses, and then it is a [ValueError]. *)
Lemma read_json_body_raises (i : Wire.inbound) (e : exn) :
  Wire.read_json_body i = Raise e ->
  exn_cls e = ValueError
  /\ exists text, Wire.in_content_length i = Some text /\ py_int text = None.
Proof.
  unfold Wire.read_json_body.
  destruct (Wire.in_content_length i) as [text|]; [|discriminate].
  destruct (py_int text) as [n|] eqn:E.
  - destruct (n =? 0); discriminate.
  - intros H. injection H as <-. split; [reflexivity|]. now exists text.
Qed.


(** A POST with [Content-Length: abc] gets no answer and changes nothing;
    the same request with a length that [int()] reads is answered. *)
Example post_with_unreadable_length :
  Wire.serve t0 (Wire.mkInbound POST "/users" (Some "abc") (Some alice)) h_alice
  = h_alice
  /\ status_code <$> wfile (Wire.serve t0
       (Wire.mkInbound POST "/users" (Some "47") (Some alice)) h_alice)
     = [201; 201].
Proof. split; reflexivity. Qed.

(** X4. Every JSON body the handler writes carries [success], true exactly
    when the status is below 400; the one body-less response, the answer to
    OPTIONS, has status 200. *)
Theorem success_flag_agrees_with_status now (r : request) (h : handler) :
  exists l : list response,
    wfile (handle_one_request now r h) = wfile h ++ l
    /\ Forall envelope_agrees l.
Proof.
  destruct (handler_shape now r h) as [[Hget ->]|(db' & resp & -> & _ & He)].
  - exists []. now rewrite app_nil_r.
  - exists [resp]. cbn [wfile]. split; auto.
Qed.





(** X7. [DELETE /users/{id}] on an existing user answers 200; afterwards the
    id is the key of no user, every other user is as before, every post is
    as before (those of the deleted user too) and the counters are as
    before; a second DELETE of the same id is answered 404. *)
Theorem delete_removes_the_user_only now (s : string) (id : Z) (user : dict)
    (h : handler) :
  py_int s = Some id ->
  get_user (db h) id = Some user ->
  let h' := do_DELETE now ["users"; s]%string h in
  wfile h' = wfile h ++ [ {| status_code := 200; headers := cors_headers;
                             body := Some (mkdict
                               [("success", JBool true);
                                ("message", JStr "User deleted successfully")
                               ]%string) |} ]
  /\ get_user (db h') id = None
  /\ (forall other, other <> id ->
        get_user (db h') other = get_user (db h) other)
  /\ posts (db h') = posts (db h)
  /\ next_user_id (db h') = next_user_id (db h)
  /\ next_post_id (db h') = next_post_id (db h)
  /\ do_DELETE now ["users"; s]%string h'
     = _send_error h' "User not found" 404 now.
Proof.
  intros Hs Hu h'.
  assert (Hh' : h' = _send_json_response
                       (with_db h {| users := od_del id (users (db h));
                                     posts := posts (db h);
                                     next_user_id := next_user_id (db h);
                                     next_post_id := next_post_id (db h) |})
                       (mkdict [("success", JBool true);
                                ("message", JStr "User deleted successfully")
                               ]%string) 200).
  { subst h'. unfold do_DELETE, delete_user, od_mem.
    cbn [length Nat.eqb negb part nth andb]. rewrite String.eqb_refl, Hs.
    unfold get_user in Hu. now rewrite Hu. }
  rewrite Hh'. unfold get_user.
  cbn [db with_db _send_json_response users posts next_user_id next_post_id wfile].
  split; [reflexivity|]. split; [apply od_get_del_eq|].
  split; [intros other Hne; now apply od_get_del_ne|].
  split; [reflexivity|]. split; [reflexivity|]. split; [reflexivity|].
  unfold do_DELETE, delete_user, od_mem.
  cbn [length Nat.eqb negb part nth andb]. rewrite String.eqb_refl, Hs.
  cbn [andb db users _send_json_response with_db]. now rewrite od_get_del_eq.
Qed.

Lemma delete_removes_the_user_only_witness :
  py_int "1" = Some 1
  /\ get_user (db h_alice_post) 1 = Some alice_record
  /\ get_user (db (do_DELETE t0 ["users"; "1"]%string h_alice_post)) 1 = None
  /\ length (get_user_posts (db (do_DELETE t0 ["users"; "1"]%string h_alice_post)) 1)
     = 1%nat.
Proof.
  split; [reflexivity|]. split; [reflexivity|].
  destruct (delete_removes_the_user_only t0 "1" 1 alice_record h_alice_post
              eq_refl eq_refl) as (_ & Hgone & _ & Hposts & _).
  split; [exact Hgone|]. unfold get_user_posts. rewrite Hposts. reflexivity.
Defined.

Lemma od_set_same {V} k (v : V) d : od_get k d = Some v -> od_set k v d = d.
Proof.
  induction d as [|[k' v'] d IH]; simpl; [discriminate|].
  destruct (k' =? k); intros H.
  - congruence.
  - now rewrite IH.
Qed.

(** X8. A PUT with the empty object as payload changes nothing in the store,
    whatever the path and whether or not the user exists. *)
Theorem put_empty_payload_changes_nothing now (path_parts : list string)
    (h : handler) :
  db (do_PUT now path_parts (Some ∅) h) = db h.
Proof.
  unfold do_PUT.
  destruct (negb (Nat.eqb (length path_parts) 0)
            && String.eqb (part path_parts 0) "users"
            && Nat.eqb (length path_parts) 2); [|reflexivity].
  destruct (py_int (part path_parts 1)) as [user_id|]; [|reflexivity].
  unfold update_user.
  destruct (od_get user_id (users (db h))) as [user|] eqn:Eu; [|reflexivity].
  rewrite (left_id_L ∅ (∪) user), (od_set_same _ _ _ Eu).
  destruct h as [[us ps nu np] wf].
  destruct (dict_truthy user); reflexivity.
Qed.

(** X9. [POST /users] with a body whose [name] or [email] is missing, null
    or otherwise false (the empty string) is answered 400
    [Name and email are required]; no user is created and no id is used. *)
Theorem create_user_needs_name_and_email now (data : dict) (h : handler) :
  truthy (dict_get data "name") = false
  \/ truthy (dict_get data "email") = false ->
  let h' := do_POST now ["users"%string] (Some data) h in
  h' = _send_error h "Name and email are required" 400 now
  /\ db h' = db h.
Proof.
  intros H h'. subst h'. unfold do_POST.
  cbn [length Nat.eqb negb part nth andb]. rewrite String.eqb_refl.
  cbn [andb].
  assert (Hc : negb (truthy (dict_get data "name"))
               || negb (truthy (dict_get data "email")) = true).
  { destruct H as [-> | ->]; [reflexivity | apply orb_true_r]. }
  rewrite Hc. split; reflexivity.
Qed.

Lemma create_user_needs_name_and_email_witness :
  (truthy (dict_get (mkdict [("name", JStr "Bob")]%string) "name") = false
   \/ truthy (dict_get (mkdict [("name", JStr "Bob")]%string) "email") = false)
  /\ next_user_id (db (do_POST t0 ["users"%string]
                         (Some (mkdict [("name", JStr "Bob")]%string)) h_alice))
     = 2.
Proof.
  assert (H : truthy (dict_get (mkdict [("name", JStr "Bob")]%string) "name") = false
              \/ truthy (dict_get (mkdict [("name", JStr "Bob")]%string) "email") = false)
    by (right; reflexivity).
  split; [exact H|].
  destruct (create_user_needs_name_and_email t0 _ h_alice H) as [_ Hdb].
  rewrite Hdb. reflexivity.
Defined.

(** X1 (witness): the first user of a new handler. *)
Lemma round_trip_on_one_store_witness :
  truthy (dict_get alice "name") = true
  /\ truthy (dict_get alice "email") = true
  /\ py_int "1" = Some (next_user_id (db HTTPRequestHandler_init))
  /\ status_code <$> wfile (do_GET t0 ["users"; "1"]%string
                              (do_POST t0 ["users"%string] (Some alice)
                                 HTTPRequestHandler_init))
     = [201; 200].
Proof.
  split; [reflexivity|]. split; [reflexivity|]. split; [reflexivity|].
  destruct (DispatchFacts.round_trip_on_one_store t0 t0 alice "1"
              HTTPRequestHandler_init eq_refl eq_refl eq_refl) as [_ H].
  rewrite H. reflexivity.
Defined.

(** X12 (witness): user 7 on the store of [h_alice_post]. *)
Lemma never_created_user_gets_empty_list_witness :
  let ops := [CreateUser (JStr "Alice") (JStr "a@x.com") (JInt 28) t0;
              CreatePost (JStr "T") (JStr "C") (JInt 1) t0] in
  db h_alice_post = fst (run ops Database_init)
  /\ py_int "7" = Some 7
  /\ (7 < 1 \/ next_user_id (db h_alice_post) <= 7)
  /\ do_GET t0 ["users"; "7"; "posts"]%string h_alice_post
     = _send_json_response h_alice_post (list_envelope []) 200.
Proof.
  assert (H3 : 7 < 1 \/ next_user_id (db h_alice_post) <= 7)
    by (right; discriminate).
  split; [reflexivity|]. split; [reflexivity|]. split; [exact H3|].
  exact (DispatchFacts.never_created_user_gets_empty_list t0
           [CreateUser (JStr "Alice") (JStr "a@x.com") (JInt 28) t0;
            CreatePost (JStr "T") (JStr "C") (JInt 1) t0]
           "7" 7 h_alice_post eq_refl eq_refl H3).
Defined.

(** X24 (witness): [GET /users/1/x]. *)
Lemma get_users_unmatched_writes_nothing_witness :
  ([] <> ([] : list string) \/ String.eqb "x" "posts" = false)
  /\ do_GET t0 ["users"; "1"; "x"]%string h_alice = h_alice.
Proof.
  assert (H : [] <> ([] : list string) \/ String.eqb "x" "posts" = false)
    by (right; reflexivity).
  split; [exact H|].
  exact (DispatchFacts.get_users_unmatched_writes_nothing t0 "1" "x" [] h_alice H).
Defined.

End ServerMore.

(** ** More on the stores reached from [Database()] *)

Module StoreMore.
Import Server Store Sample StoreFacts Reach.

Section int_dict_keys.
Context {V : Type}.
Implicit Types (d : list (Z * V)) (k : Z) (v : V).

Lemma od_get_None_keys k d : od_get k d = None <-> ~ In k (od_keys d).
Proof.
  unfold od_keys. induction d as [|[k' v'] d IH]; simpl.
  { split; [intros _ []|reflexivity]. }
  destruct (k' =? k) eqn:E.
  - apply Z.eqb_eq in E. split; [discriminate|]. intros H. exfalso. auto.
  - apply Z.eqb_neq in E. rewrite IH. tauto.
Qed.

Lemma od_set_absent k v d : od_get k d = None -> od_set k v d = d ++ [(k, v)].
Proof.
  induction d as [|[k' v'] d IH]; simpl; [reflexivity|].
  destruct (k' =? k); [discriminate|]. intros H. now rewrite IH.
Qed.

Lemma od_keys_set_present k v v0 d :
  od_get k d = Some v0 -> od_keys (od_set k v d) = od_keys d.
Proof.
  unfold od_keys. induction d as [|[k' v'] d IH]; simpl; [discriminate|].
  destruct (k' =? k); simpl; [reflexivity|]. intros H. now rewrite IH.
Qed.

Lemma od_keys_del k d : forall x, In x (od_keys (od_del k d)) -> In x (od_keys d).
Proof.
  unfold od_keys, od_del. induction d as [|[k' v'] d IH]; simpl; [tauto|].
  intros x. destruct (k' =? k); simpl; intros H; [right; auto|].
  destruct H; auto.
Qed.

Lemma keys_fresh_del k d next : keys_fresh d next -> keys_fresh (od_del k d) next.
Proof.
  unfold keys_fresh, od_keys, od_del.
  induction d as [|[k' v'] d IH]; simpl; [tauto|].
  intros [Hn Hf]. apply NoDup_cons in Hn. destruct Hn as [Hni Hn].
  apply Forall_cons in Hf. destruct Hf as [Hk Hf].
  destruct (IH (conj Hn Hf)) as [IHn IHf].
  destruct (k' =? k); simpl; [split; assumption|].
  split.
  - apply NoDup_cons. split; [|assumption]. intros Hin. apply Hni.
    apply list_elem_of_In. apply list_elem_of_In in Hin.
    apply (od_keys_del k d). exact Hin.
  - apply Forall_cons. split; assumption.
Qed.

Lemma keys_fresh_new v d next :
  keys_fresh d next -> keys_fresh (od_set next v d) (next + 1)
                       /\ od_set next v d = d ++ [(next, v)].
Proof.
  intros [Hn Hf].
  assert (Hnone : od_get next d = None).
  { apply od_get_None_keys. intros Hin.
    rewrite Forall_forall in Hf. apply list_elem_of_In in Hin.
    specialize (Hf _ Hin). lia. }
  rewrite (od_set_absent _ _ _ Hnone). split; [|reflexivity].
  unfold keys_fresh, od_keys in *. rewrite List.map_app. simpl. split.
  - apply NoDup_app. split; [assumption|]. split.
    + intros x Hx Hx'. apply list_elem_of_singleton in Hx'. subst x.
      rewrite Forall_forall in Hf. specialize (Hf _ Hx). lia.
    + apply NoDup_singleton.
  - apply Forall_app. split.
    + eapply Forall_impl; [exact Hf|]. simpl. intros; lia.
    + apply Forall_singleton. lia.
Qed.

Lemma keys_fresh_update k v v0 d next :
  od_get k d = Some v0 -> keys_fresh d next -> keys_fresh (od_set k v d) next.
Proof.
  intros H Hf. unfold keys_fresh. now rewrite (od_keys_set_present _ _ _ _ H).
Qed.

Lemma length_od_del k v d :
  NoDup (od_keys d) -> od_get k d = Some v ->
  S (length (od_del k d)) = length d.
Proof.
  unfold od_keys, od_del. induction d as [|[k' v'] d IH]; simpl; [discriminate|].
  intros Hn. apply NoDup_cons in Hn. destruct Hn as [Hni Hn].
  destruct (k' =? k) eqn:E; simpl.
  - intros _. apply Z.eqb_eq in E. subst k'. f_equal.
    assert (Hnone : od_get k d = None).
    { apply od_get_None_keys. intros Hin. apply Hni. now apply list_elem_of_In. }
    clear IH Hn Hni. induction d as [|[k0 v0] d IH]; simpl; [reflexivity|].
    simpl in Hnone. destruct (k0 =? k); [discriminate|]. simpl.
    now rewrite IH.
  - intros H. now rewrite IH.
Qed.

End int_dict_keys.

Lemma well_keyed_init : well_keyed Database_init.
Proof.
  repeat split; try apply NoDup_nil_2; try apply Forall_nil_2. discriminate.
Qed.

Lemma well_keyed_step db o : well_keyed db -> well_keyed (fst (step db o)).
Proof.
  intros (Hu & Hp & Hid).
  destruct o as [name email age now|uid upd|uid|title content author now]; simpl.
  - split; [|split; assumption]. simpl. apply keys_fresh_new, Hu.
  - unfold update_user.
    destruct (od_get uid (users db)) eqn:E; simpl; [|exact (conj Hu (conj Hp Hid))].
    split; [|split; assumption]. simpl. eapply keys_fresh_update; eauto.
  - unfold delete_user.
    destruct (od_mem uid (users db)); simpl; [|exact (conj Hu (conj Hp Hid))].
    split; [|split; assumption]. simpl. apply keys_fresh_del, Hu.
  - unfold create_post.
    destruct (author_in_users db author) as [[|]|e]; simpl;
      try exact (conj Hu (conj Hp Hid)).
    split; [assumption|]. split; simpl.
    + apply keys_fresh_new, Hp.
    + intros k p. destruct (Z.eq_dec (next_post_id db) k) as [<-|Hne].
      * rewrite od_get_set_eq. intros H. inversion H. reflexivity.
      * rewrite od_get_set_ne by assumption. apply Hid.
Qed.

Lemma well_keyed_run ops : forall db,
  well_keyed db -> well_keyed (fst (run ops db)).
Proof.
  induction ops as [|o ops IH]; intros db H; simpl; auto.
  apply IH, well_keyed_step, H.
Qed.

Lemma post_kept_by_step db o pid p :
  well_keyed db -> get_post db pid = Some p ->
  get_post (fst (step db o)) pid = Some p.
Proof.
  intros (_ & [_ Hf] & _) Hget. unfold get_post in *.
  destruct o as [name email age now|uid upd|uid|title content author now]; simpl.
  - exact Hget.
  - unfold update_user. destruct (od_get uid (users db)); exact Hget.
  - unfold delete_user. destruct (od_mem uid (users db)); exact Hget.
  - unfold create_post.
    destruct (author_in_users db author) as [[|]|e]; simpl; try exact Hget.
    rewrite od_get_set_ne; [exact Hget|]. intros Heq.
    assert (Hin : In pid (od_keys (posts db))).
    { destruct (od_get_None_keys pid (posts db)) as [_ H].
      destruct (in_dec Z.eq_dec pid (od_keys (posts db))) as [Hin|Hnin]; auto.
      rewrite (H Hnin) in Hget. discriminate. }
    rewrite Forall_forall in Hf. apply list_elem_of_In in Hin.
    specialize (Hf _ Hin). simpl in Hf. lia.
Qed.

Lemma post_kept_by_run ops' : forall db pid p,
  well_keyed db -> get_post db pid = Some p ->
  get_post (fst (run ops' db)) pid = Some p.
Proof.
  induction ops' as [|o ops' IH]; intros db pid p Hwk Hget; simpl; auto.
  apply IH; [apply well_keyed_step, Hwk | now apply post_kept_by_step].
Qed.

(** X10. A post stored by a run of operations from [Database()] stays as it
    is under every further run: no operation removes or changes a post, and
    a new post never takes the key of an old one. Its [id] is the key it is
    stored under. *)
Theorem stored_post_is_permanent (ops ops' : list op) (pid : Z) (p : Post) :
  let db := fst (run ops Database_init) in
  get_post db pid = Some p ->
  get_post (fst (run ops' db)) pid = Some p /\ post_id p = pid.
Proof.
  intros db Hget.
  pose proof (well_keyed_run ops _ well_keyed_init) as Hwk. fold db in Hwk.
  split; [now apply post_kept_by_run|].
  destruct Hwk as (_ & _ & Hid). now apply Hid.
Qed.

Lemma stored_post_is_permanent_witness :
  let ops := [CreateUser (JStr "Alice") (JStr "a@x.com") (JInt 28) t0;
              CreatePost (JStr "T") (JStr "C") (JInt 1) t0] in
  let ops' := [DeleteUser 1;
               CreateUser (JStr "Bob") (JStr "b@x.com") JNull t0;
               CreatePost (JStr "U") (JStr "D") (JInt 2) t0] in
  let p := {| post_id := 1; post_title := JStr "T"; post_content := JStr "C";
              post_author_id := JInt 1; post_created_at := t0 |} in
  get_post (fst (run ops Database_init)) 1 = Some p
  /\ get_post (fst (run ops' (fst (run ops Database_init)))) 1 = Some p.
Proof.
  split; [reflexivity|].
  exact (proj1 (stored_post_is_permanent
                  [CreateUser (JStr "Alice") (JStr "a@x.com") (JInt 28) t0;
                   CreatePost (JStr "T") (JStr "C") (JInt 1) t0]
                  [DeleteUser 1;
                   CreateUser (JStr "Bob") (JStr "b@x.com") JNull t0;
                   CreatePost (JStr "U") (JStr "D") (JInt 2) t0]
                  1 _ eq_refl)).
Defined.

(** X11. On a store reached from [Database()]: [create_user] puts the new
    user at the end of the listing and leaves the rest of it as it was;
    [delete_user] of an existing id makes the listing exactly one shorter;
    [update_user] does not change its length. *)
Theorem listing_follows_the_operations (ops : list op) name email age now
    (id : Z) (updates : dict) :
  let db := fst (run ops Database_init) in
  get_all_users (snd (create_user db name email age now))
  = get_all_users db ++ [fst (create_user db name email age now)]
  /\ (forall user, get_user db id = Some user ->
        S (length (get_all_users (snd (delete_user db id))))
        = length (get_all_users db))
  /\ length (get_all_users (snd (update_user db id updates)))
     = length (get_all_users db).
Proof.
  intros db.
  destruct (well_keyed_run ops _ well_keyed_init) as (Hu & _ & _). fold db in Hu.
  unfold get_all_users, od_values. split; [|split].
  - unfold create_user. cbn [fst snd users].
    destruct (keys_fresh_new
                       (mkdict [("id", JInt (next_user_id db)); ("name", name);
                                ("email", email); ("age", age);
                                ("created_at", JFloat now)]%string)
                       _ _ Hu) as [_ ->].
    now rewrite List.map_app.
  - intros user Hget. unfold delete_user, od_mem, get_user in *. rewrite Hget.
    simpl. rewrite !length_map. eapply length_od_del; [apply Hu | exact Hget].
  - unfold update_user. destruct (od_get id (users db)) as [user|] eqn:E;
      simpl; auto.
    rewrite !length_map.
    assert (Hk := od_keys_set_present id (updates ∪ user) user (users db) E).
    apply (f_equal length) in Hk. unfold od_keys in Hk.
    now rewrite !length_map in Hk.
Qed.

End StoreMore.

(** ** Paths and decimal ids *)

Module PathMore.
Import Server Reach ClientApi.

Lemma append_cons c s t : String c s +:+ t = String c (s +:+ t).
Proof. reflexivity. Qed.

Lemma append_empty_r s : s +:+ "" = s.
Proof.
  induction s as [|c s IH]; [reflexivity|]. now rewrite append_cons, IH.
Qed.

Lemma append_assoc_r s t u : (s +:+ t) +:+ u = s +:+ (t +:+ u).
Proof.
  induction s as [|c s IH]; [reflexivity|]. now rewrite !append_cons, IH.
Qed.

(** A string without a slash: its first character is none and its rest has
    none. *)
Lemma no_slash_cons c t :
  str_contains "/" (String c t) = false ->
  Ascii.eqb c "/" = false /\ str_contains "/" t = false.
Proof.
  cbn [str_contains String.prefix].
  destruct (ascii_dec "/" c) as [<-|Hne]; cbn [String.prefix orb].
  - intros H. destruct t; discriminate H.
  - intros H. split; [|exact H].
    apply Ascii.eqb_neq. congruence.
Qed.

Lemma no_slash_snoc s c :
  str_contains "/" s = false -> Ascii.eqb c "/" = false ->
  str_contains "/" (s +:+ String c "") = false.
Proof.
  intros Hs Hc. induction s as [|a s IH].
  - change ("" +:+ String c "") with (String c "").
    cbn [str_contains String.prefix]. apply Ascii.eqb_neq in Hc.
    destruct (ascii_dec "/" c) as [E|_]; [congruence|reflexivity].
  - destruct (no_slash_cons _ _ Hs) as [Ha Ht]. specialize (IH Ht).
    change ((String a s) +:+ String c "") with (String a (s +:+ String c "")).
    cbn [str_contains String.prefix]. apply Ascii.eqb_neq in Ha.
    destruct (ascii_dec "/" a) as [E|_]; [congruence|]. exact IH.
Qed.

(** [split] never leaves a slash in a piece. *)
Lemma split_slash_aux_no_slash s : forall cur,
  str_contains "/" cur = false ->
  Forall (fun p => str_contains "/" p = false) (split_slash_aux s cur).
Proof.
  induction s as [|c s IH]; intros cur Hcur; simpl.
  - apply Forall_singleton. exact Hcur.
  - destruct (Ascii.eqb c "/") eqn:E.
    + apply Forall_cons. split; [exact Hcur|]. apply IH. reflexivity.
    + apply IH. now apply no_slash_snoc.
Qed.

(** X13. The segments [_parse_path] yields are never empty and never hold a
    slash, whatever the path. *)
Theorem parse_path_yields_segments (r : request) :
  Forall (fun p => is_segment p = true) (_parse_path r).
Proof.
  unfold _parse_path, split_slash.
  pose proof (split_slash_aux_no_slash (path r) "" eq_refl) as H.
  induction H as [|p l Hp Hl IH]; simpl; [constructor|].
  destruct (String.eqb p "") eqn:E; simpl; [exact IH|].
  constructor; [|exact IH]. unfold is_segment. now rewrite E, Hp.
Qed.

(** A piece without a slash goes whole into the current piece. *)
Lemma split_slash_aux_piece p : forall rest cur,
  str_contains "/" p = false ->
  split_slash_aux (p +:+ rest) cur = split_slash_aux rest (cur +:+ p).
Proof.
  induction p as [|c p IH]; intros rest cur Hp.
  - change ("" +:+ rest) with rest. now rewrite append_empty_r.
  - destruct (no_slash_cons _ _ Hp) as [Hc Ht].
    rewrite append_cons. cbn [split_slash_aux]. rewrite Hc, (IH _ _ Ht).
    now rewrite append_assoc_r.
Qed.

Lemma split_slash_aux_join parts : forall cur,
  Forall (fun p => is_segment p = true) parts ->
  split_slash_aux (join_path parts) cur = cur :: parts.
Proof.
  induction parts as [|p parts IH]; intros cur Hall; [reflexivity|].
  apply Forall_cons in Hall. destruct Hall as [Hp Hall].
  unfold is_segment in Hp. apply andb_true_iff in Hp. destruct Hp as [_ Hp].
  apply negb_true_iff in Hp.
  change (join_path (p :: parts)) with (String "/" (p +:+ join_path parts)).
  cbn [split_slash_aux]. change (Ascii.eqb "/" "/") with true. cbn iota.
  rewrite (split_slash_aux_piece p _ "" Hp).
  change ("" +:+ p) with p. now rewrite IH.
Qed.

Lemma parse_path_join_path (m : http_method) (data : option dict)
    (parts : list string) :
  Forall (fun p => is_segment p = true) parts ->
  _parse_path (mkRequest m (join_path parts) data) = parts.
Proof.
  intros Hall. unfold _parse_path, split_slash. cbn [path].
  rewrite (split_slash_aux_join parts "" Hall). simpl.
  induction Hall as [|p l Hp Hl IH]; simpl; [reflexivity|].
  unfold is_segment in Hp. apply andb_true_iff in Hp. destruct Hp as [Hp _].
  rewrite Hp. now rewrite IH.
Qed.

(** X14. On the path component of a request target (what
    [urlparse(self.path).path] gives, which is what [path] holds): when it
    is a slash before each of some non-empty, slash-free segments,
    [_parse_path] returns exactly those segments, and so does it when the
    component ends in one more slash. Nothing is said of a target with
    parameters, a query or a fragment, which [urlparse] removes before the
    split. *)
Theorem parse_path_of_joined_segments (m : http_method) (data : option dict)
    (parts : list string) :
  Forall (fun p => is_segment p = true) parts ->
  _parse_path (mkRequest m (join_path parts) data) = parts
  /\ _parse_path (mkRequest m (join_path (parts ++ [""%string])) data) = parts.
Proof.
  intros Hall. split; [now apply parse_path_join_path|].
  unfold _parse_path, split_slash. cbn [path].
  assert (Hgen : forall cur,
            List.filter (fun p => negb (String.eqb p ""))
              (split_slash_aux (join_path (parts ++ [""%string])) cur)
            = List.filter (fun p => negb (String.eqb p "")) (cur :: parts)).
  { induction Hall as [|p l Hp Hl IH]; intros cur.
    - change (split_slash_aux (join_path ([] ++ [""%string])) cur)
        with [cur; ""%string].
      reflexivity.
    - unfold is_segment in Hp. apply andb_true_iff in Hp.
      destruct Hp as [Hne Hp]. apply negb_true_iff in Hp.
      change (join_path ((p :: l) ++ [""%string]))
        with (String "/" (p +:+ join_path (l ++ [""%string]))).
      cbn [split_slash_aux]. change (Ascii.eqb "/" "/") with true. cbn iota.
      rewrite (split_slash_aux_piece p _ "" Hp). change ("" +:+ p) with p.
      cbn [List.filter]. now rewrite IH. }
  rewrite Hgen. cbn [List.filter String.eqb negb].
  clear Hgen. induction Hall as [|p l Hp Hl IH]; [reflexivity|].
  unfold is_segment in Hp. apply andb_true_iff in Hp. destruct Hp as [Hp _].
  cbn [List.filter]. now rewrite Hp, IH.
Qed.

Lemma parse_path_of_joined_segments_witness :
  Forall (fun p => is_segment p = true) ["users"; "7"; "posts"]%string
  /\ _parse_path (mkRequest GET "/users/7/posts" None)
     = ["users"; "7"; "posts"]%string.
Proof.
  assert (H : Forall (fun p => is_segment p = true) ["users"; "7"; "posts"]%string)
    by (repeat constructor).
  split; [exact H|].
  exact (proj1 (parse_path_of_joined_segments GET None
                  ["users"; "7"; "posts"]%string H)).
Defined.

(** *** Decimal ids *)

(** The digits of a decimal, read after a non-zero prefix [acc]. *)
Lemma parse_digits_acc (u : Decimal.uint) : forall acc : positive,
  parse_digits (NilEmpty.string_of_uint u) (Z.pos acc) true
  = Some (Z.pos (Pos.of_uint_acc u acc)).
Proof.
  induction u; intros acc; cbn [NilEmpty.string_of_uint Pos.of_uint_acc];
    [reflexivity|..];
    cbn [parse_digits];
    match goal with
    | |- context [digit_of ?c] =>
        let d := eval vm_compute in (digit_of c) in change (digit_of c) with d
    end; cbn iota;
    match goal with
    | |- parse_digits _ ?a true = Some (Z.pos (Pos.of_uint_acc _ ?b)) =>
        replace a with (Z.pos b) by lia
    end; apply IHu.
Qed.

(** The digits of a decimal, read from the start. *)
Lemma parse_digits_start (u : Decimal.uint) : forall b : bool,
  u <> Decimal.Nil \/ b = true ->
  parse_digits (NilEmpty.string_of_uint u) 0 b = Some (Z.of_N (Pos.of_uint u)).
Proof.
  induction u; intros b Hb; cbn [NilEmpty.string_of_uint Pos.of_uint].
  - destruct Hb as [Hb| ->]; [congruence|reflexivity].
  - exact (IHu true (or_intror eq_refl)).
  - exact (parse_digits_acc u 1).
  - exact (parse_digits_acc u 2).
  - exact (parse_digits_acc u 3).
  - exact (parse_digits_acc u 4).
  - exact (parse_digits_acc u 5).
  - exact (parse_digits_acc u 6).
  - exact (parse_digits_acc u 7).
  - exact (parse_digits_acc u 8).
  - exact (parse_digits_acc u 9).
Qed.

(** A decimal has no white space to strip and no slash. *)
Lemma rstrip_space_digits (u : Decimal.uint) :
  rstrip_space (NilEmpty.string_of_uint u) = NilEmpty.string_of_uint u.
Proof.
  induction u; cbn [NilEmpty.string_of_uint rstrip_space]; [reflexivity|..];
    rewrite IHu; cbv zeta;
    match goal with
    | |- context [is_space ?c] => change (is_space c) with false
    end; now rewrite andb_false_r.
Qed.

Lemma digits_no_slash (u : Decimal.uint) :
  str_contains "/" (NilEmpty.string_of_uint u) = false.
Proof.
  induction u; cbn [NilEmpty.string_of_uint]; [reflexivity|..]; exact IHu.
Qed.

Lemma py_int_digits (u : Decimal.uint) :
  u <> Decimal.Nil ->
  count_digits (NilEmpty.string_of_uint u) <= max_str_digits ->
  py_int (NilEmpty.string_of_uint u) = Some (Z.of_N (Pos.of_uint u))
  /\ py_int (String "-" (NilEmpty.string_of_uint u))
     = Some (- Z.of_N (Pos.of_uint u)).
Proof.
  intros Hu Hc.
  assert (Hneg : py_int (String "-" (NilEmpty.string_of_uint u))
                 = Some (- Z.of_N (Pos.of_uint u))).
  { unfold py_int. cbn [lstrip_space]. change (is_space "-") with false.
    cbn iota. cbn [rstrip_space]. rewrite rstrip_space_digits. cbv zeta.
    change (is_space "-") with false. rewrite andb_false_r.
    change (count_digits (String "-" (NilEmpty.string_of_uint u)))
      with (count_digits (NilEmpty.string_of_uint u)).
    rewrite (proj2 (Z.ltb_ge _ _) Hc).
    change (Ascii.eqb "-" "-") with true. cbn iota.
    rewrite (parse_digits_start u false (or_introl Hu)). reflexivity. }
  split; [|exact Hneg].
  pose proof (parse_digits_start u false (or_introl Hu)) as Hp.
  pose proof (rstrip_space_digits u) as Hr.
  apply Z.ltb_ge in Hc.
  unfold py_int. destruct u; [congruence|..];
    cbn [NilEmpty.string_of_uint] in Hp, Hr, Hc |- *;
    cbn [lstrip_space];
    match goal with
    | |- context [if is_space ?c then _ else _] => change (is_space c) with false
    end; cbn iota; rewrite Hr, Hc;
    match goal with
    | |- context [Ascii.eqb ?c "-"] =>
        change (Ascii.eqb c "-") with false; change (Ascii.eqb c "+") with false
    end; cbn iota; exact Hp.
Qed.

(** The text of an integer, when it is within the digit limit, is read back
    by [int()] as that integer; it is not empty and has no slash. *)
Lemma py_int_decimal (n : Z) :
  count_digits (str_of_int n) <= max_str_digits ->
  py_int (str_of_int n) = Some n /\ is_segment (str_of_int n) = true.
Proof.
  unfold str_of_int. destruct n as [|p|p]; cbn [Z.to_int NilZero.string_of_int].
  - intros _. split; reflexivity.
  - pose proof (DecimalPos.Unsigned.to_uint_nonnil p) as Hnil.
    pose proof (DecimalPos.Unsigned.of_to p) as Hof.
    pose proof (digits_no_slash (Pos.to_uint p)) as Hs.
    pose proof (py_int_digits _ Hnil) as Hd. rewrite Hof in Hd.
    destruct (Pos.to_uint p) eqn:E; [congruence|..];
      cbn [NilZero.string_of_uint]; intros Hc;
      (split; [exact (proj1 (Hd Hc))|]);
      unfold is_segment; rewrite Hs; reflexivity.
  - pose proof (DecimalPos.Unsigned.to_uint_nonnil p) as Hnil.
    pose proof (DecimalPos.Unsigned.of_to p) as Hof.
    pose proof (digits_no_slash (Pos.to_uint p)) as Hs.
    pose proof (py_int_digits _ Hnil) as Hd. rewrite Hof in Hd.
    destruct (Pos.to_uint p) eqn:E; [congruence|..];
      cbn [NilZero.string_of_uint]; intros Hc;
      (split; [exact (proj2 (Hd Hc))|]);
      unfold is_segment; cbn [String.eqb negb andb str_contains String.prefix];
      match goal with
      | |- context [ascii_dec ?a ?b] =>
          destruct (ascii_dec a b) as [Habs|_]; [discriminate Habs|]
      end; cbn [orb]; rewrite Hs; reflexivity.
Qed.

(** [str()] in an f-string either gives the decimal text, which is then
    within the digit limit, or raises. *)
Lemma format_int_ok (n : Z) (text : string) :
  format_int n = Ok text ->
  text = str_of_int n /\ count_digits (str_of_int n) <= max_str_digits.
Proof.
  unfold format_int.
  destruct (max_str_digits <? count_digits (str_of_int n)) eqn:E;
    [discriminate|].
  intros H. injection H as <-. split; [reflexivity|].
  now apply Z.ltb_ge.
Qed.

(** An id whose text is past the digit limit never reaches the wire: the
    f-string raises while the endpoint is built. *)
Lemma endpoint_of_long_id_raises (n : Z) :
  max_str_digits < count_digits (str_of_int n) ->
  exists e, exn_cls e = ValueError
            /\ user_endpoint n = Raise e
            /\ post_endpoint n = Raise e
            /\ user_posts_endpoint n = Raise e.
Proof.
  intros H. apply Z.ltb_lt in H.
  unfold user_endpoint, post_endpoint, user_posts_endpoint, format_int.
  rewrite H. eexists. repeat split; reflexivity.
Qed.

(** X16. Whenever the client builds the endpoint of an integer id (the
    f-string raises for an id of more than 4300 digits, and then nothing is
    sent), the three endpoints built from that id, taken as the path
    component of a request, are split by the server into the segments of
    the route, and the id segment is read back by [int()] as the integer. *)
Theorem client_endpoints_reach_their_id (m : http_method)
    (data : option dict) (n : Z) (e : string) :
  user_endpoint n = Ok e ->
  e = "users/" +:+ str_of_int n
  /\ post_endpoint n = Ok ("posts/" +:+ str_of_int n)
  /\ user_posts_endpoint n = Ok ("users/" +:+ str_of_int n +:+ "/posts")
  /\ _parse_path (mkRequest m ("/" +:+ e) data)
     = ["users"%string; str_of_int n]
  /\ _parse_path (mkRequest m ("/posts/" +:+ str_of_int n) data)
     = ["posts"%string; str_of_int n]
  /\ _parse_path (mkRequest m ("/users/" +:+ str_of_int n +:+ "/posts") data)
     = ["users"%string; str_of_int n; "posts"%string]
  /\ py_int (part (_parse_path (mkRequest m ("/" +:+ e) data)) 1) = Some n.
Proof.
  intros He. unfold user_endpoint in He.
  destruct (format_int n) as [text|err] eqn:Ef; [|discriminate].
  injection He as <-.
  destruct (format_int_ok n text Ef) as [-> Hc].
  destruct (py_int_decimal n Hc) as [Hint Hseg].
  assert (Hu : is_segment "users" = true) by reflexivity.
  assert (Hp : is_segment "posts" = true) by reflexivity.
  assert (E1 : "/" +:+ ("users/" +:+ str_of_int n)
               = join_path ["users"%string; str_of_int n]).
  { cbn [join_path]. now rewrite append_empty_r. }
  assert (E2 : "/posts/" +:+ str_of_int n
               = join_path ["posts"%string; str_of_int n]).
  { cbn [join_path]. now rewrite append_empty_r. }
  assert (E3 : "/users/" +:+ str_of_int n +:+ "/posts"
               = join_path ["users"%string; str_of_int n; "posts"%string]).
  { cbn [join_path]. reflexivity. }
  unfold post_endpoint, user_posts_endpoint. rewrite Ef.
  rewrite E1, E2, E3.
  assert (P1 : _parse_path (mkRequest m (join_path ["users"%string; str_of_int n]) data)
               = ["users"%string; str_of_int n]).
  { apply parse_path_join_path. repeat constructor; assumption. }
  rewrite P1.
  split; [reflexivity|]. split; [reflexivity|]. split; [reflexivity|].
  split; [reflexivity|]. split; [|split].
  - apply parse_path_join_path. repeat constructor; assumption.
  - apply parse_path_join_path. repeat constructor; assumption.
  - exact Hint.
Qed.

Lemma client_endpoints_reach_their_id_witness :
  user_endpoint 42 = Ok "users/42"%string
  /\ _parse_path (mkRequest GET "/users/42" None) = ["users"; "42"]%string
  /\ py_int "42" = Some 42.
Proof.
  assert (H : user_endpoint 42 = Ok "users/42"%string) by reflexivity.
  split; [exact H|].
  destruct (client_endpoints_reach_their_id GET None 42 "users/42" H)
    as (_ & _ & _ & Hpath & _ & _ & Hint).
  split; [exact Hpath | exact Hint].
Defined.

End PathMore.

(** ** More on the client *)

Module ClientMore.
Import Client ClientApi Sample ClientFacts.

Section runs.
Variable env : runtime.
Variable self : client.

(** X17. [health_check] makes one GET exchange on the root, raises nothing
    whatever the exchange gives, and answers [True] exactly when a response
    of status 200 arrived whose body is not JSON or is a JSON object. *)
Theorem health_check_is_status_200 (w : world) :
  exists b : bool,
    health_check env self w
    = (Ok b, after_request "GET" (request_url self "") w)
    /\ (b = true <->
        exists response,
          net env (exchanges w) = Responded response
          /\ status_code response = 200
          /\ (json_value response = None
              \/ exists o, json_value response = Some (JObj o))).
Proof.
  unfold health_check, get_server_info, bind, ret. rewrite request_run.
  eexists. split; [reflexivity|].
  unfold dict_get_default.
  destruct (net env (exchanges w)) as [response|e]; cbn [outcome].
  - destruct (json_value response) as [v|] eqn:Ej.
    + destruct v as [|b|n|f|s|l|o]; cbn [py_update];
        try (rewrite handlers_have_no_status; cbn;
             split; [discriminate|];
             intros (r' & Hr & _ & [Hn|[o Ho]]); inversion Hr; subst;
             congruence).
      rewrite (lookup_union_Some_l _ _ _ _ (status_info_code response)).
      cbn [default py_eq_int]. split.
      * intros H. apply Z.eqb_eq in H. exists response.
        repeat split; eauto.
      * intros (r' & Hr & Hs & _). inversion Hr; subst. now apply Z.eqb_eq.
    + cbn [py_update].
      rewrite (lookup_union_Some_l _ _ _ _ (status_info_code response)).
      cbn [default py_eq_int]. split.
      * intros H. apply Z.eqb_eq in H. exists response. repeat split; auto.
      * intros (r' & Hr & Hs & _). inversion Hr; subst. now apply Z.eqb_eq.
  - rewrite handlers_have_no_status. cbn. split; [discriminate|].
    intros (r' & Hr & _). discriminate.
Qed.

(** The events of a returning call: the loop over the attempts
    [a, ..., max_retries - 1]. *)
Lemma retry_loop_trace method endpoint (len : nat) :
  forall (a : nat) last w d w',
  Z.of_nat (a + len) = max_retries self ->
  (1 <= len)%nat ->
  retry_loop env self method endpoint (Z.of_nat <$> seq a len) last w
  = (Ok d, w') ->
  exists N : nat,
    (1 <= N <= len)%nat
    /\ exchanges w' = (exchanges w + N)%nat
    /\ trace w' = trace w ++ attempts_trace method (request_url self endpoint)
                               (retry_delay self) (Z.of_nat a) N
    /\ d = outcome (net env (exchanges w + N - 1)).
Proof.
  induction len as [|len IH]; intros a last w d w' Hmax Hlen H; [lia|].
  cbn [seq fmap list_fmap] in H. rewrite retry_step in H. cbv zeta in H.
  destruct (triggers env (outcome (net env (exchanges w)))
            && (Z.of_nat a <? max_retries self - 1)) eqn:Econt.
  - apply andb_true_iff in Econt. destruct Econt as [_ Hb].
    apply Z.ltb_lt in Hb.
    destruct (sleep_check env (retry_delay self)); [discriminate|].
    apply IH in H; [|lia|lia].
    destruct H as (N & HN & Hex & Htr & Hd). cbn [exchanges trace] in Hex, Htr, Hd.
    exists (S N). split; [lia|]. split; [lia|]. split.
    + rewrite Htr, <- !app_assoc. f_equal.
      destruct N as [|N]; [lia|]. cbn [attempts_trace app].
      replace (Z.of_nat (S a)) with (Z.of_nat a + 1) by lia. reflexivity.
    + rewrite Hd. do 2 f_equal. lia.
  - inversion H; subst. exists 1%nat. cbn [after_request exchanges trace].
    split; [lia|]. split; [lia|]. split; [reflexivity|].
    do 2 f_equal. lia.
Qed.

Lemma sleeps_of_attempts_trace method url d : forall (n : nat) (a : Z),
  sleeps_of (attempts_trace method url d a n) = replicate (n - 1) d.
Proof.
  induction n as [|n IH]; intros a; [reflexivity|].
  destruct n as [|n]; [reflexivity|].
  change (attempts_trace method url d a (S (S n)))
    with (EvRequest method url :: EvPrint (a + 1) d :: EvSleep d
          :: attempts_trace method url d (a + 1) (S n)).
  specialize (IH (a + 1)).
  set (rest := attempts_trace method url d (a + 1) (S n)) in *.
  unfold sleeps_of in *. simpl. f_equal.
  replace (S n - 1)%nat with n in IH by lia. exact IH.
Qed.

Lemma py_range_seq n : py_range n = Z.of_nat <$> seq 0 (Z.to_nat n).
Proof. reflexivity. Qed.

(** X20. Whenever [_request_with_retry] returns, it has made some number
    [N] of exchanges between 1 and [max_retries]; its events are a request,
    then for each further attempt the notice, the pause of [retry_delay] and
    the request, so it has slept exactly [N - 1] times and never after the
    last attempt; and what it returns is the outcome of the last exchange. *)
Theorem returning_call_trace method endpoint d w' :
  _request_with_retry env self method endpoint world0 = (Ok d, w') ->
  exists N : nat,
    (1 <= N <= Z.to_nat (max_retries self))%nat
    /\ exchanges w' = N
    /\ trace w' = attempts_trace method (request_url self endpoint)
                    (retry_delay self) 0 N
    /\ sleeps_of (trace w') = replicate (N - 1) (retry_delay self)
    /\ d = outcome (net env (N - 1)).
Proof.
  intros H. unfold _request_with_retry in H. rewrite py_range_seq in H.
  destruct (Z.to_nat (max_retries self)) as [|n] eqn:En.
  { simpl in H. discriminate. }
  rewrite <- En in H.
  apply (retry_loop_trace method endpoint (Z.to_nat (max_retries self)) O) in H;
    [|lia|lia].
  destruct H as (N & HN & Hex & Htr & Hd). cbn [world0 exchanges trace app Nat.add] in *.
  exists N. rewrite En in HN. split; [lia|]. split; [exact Hex|].
  split; [exact Htr|]. split; [|exact Hd].
  rewrite Htr. apply sleeps_of_attempts_trace.
Qed.

(** X21. When [time.sleep] refuses the delay, the first outcome that
    triggers a retry with an attempt left makes the call raise the exception
    of [time.sleep], after one exchange and the notice; the outcome of the
    exchange is lost. *)
Theorem refused_delay_raises method endpoint (w : world) (e : exn) :
  2 <= max_retries self ->
  sleep_check env (retry_delay self) = Some e ->
  triggers env (outcome (net env (exchanges w))) = true ->
  _request_with_retry env self method endpoint w
  = (Raise e,
     {| exchanges := S (exchanges w);
        trace := (trace w ++ [EvRequest method (request_url self endpoint)])
                 ++ [EvPrint 1 (retry_delay self)] |}).
Proof.
  intros Hmax Hsleep Htr. unfold _request_with_retry. rewrite py_range_seq.
  destruct (Z.to_nat (max_retries self)) as [|n] eqn:En; [lia|].
  cbn [seq fmap list_fmap]. rewrite retry_step. cbv zeta.
  rewrite Htr, Hsleep.
  replace (Z.of_nat 0 <? max_retries self - 1) with true
    by (symmetry; apply Z.ltb_lt; lia).
  reflexivity.
Qed.

(** X22. A response below 500 whose body is a JSON object without an
    [error] key is returned at once, after one exchange and without a pause,
    with the status code and the success flag added to the body. *)
Theorem plain_answer_is_returned_at_once method endpoint (w : world)
    (response : http_response) (o : dict) :
  1 <= max_retries self ->
  net env (exchanges w) = Responded response ->
  json_value response = Some (JObj o) ->
  o !! "error" = None ->
  status_code response < 500 ->
  _request_with_retry env self method endpoint w
  = (Ok (status_info response ∪ o),
     after_request method (request_url self endpoint) w).
Proof.
  intros Hmax Hnet Hjson Herr Hstatus.
  unfold _request_with_retry. rewrite py_range_seq.
  destruct (Z.to_nat (max_retries self)) as [|n] eqn:En; [lia|].
  cbn [seq fmap list_fmap]. rewrite retry_step. cbv zeta.
  rewrite Hnet. cbn [outcome]. rewrite Hjson. cbn [py_update].
  assert (Htr : triggers env (status_info response ∪ o) = false).
  { unfold triggers, status_at_least_500, error_text, dict_get_default.
    rewrite (lookup_union_Some_l _ _ _ _ (status_info_code response)).
    rewrite lookup_union_r by (now apply status_info_other).
    rewrite Herr. cbn [default py_str].
    replace (500 <=? status_code response) with false
      by (symmetry; apply Z.leb_gt; lia).
    reflexivity. }
  now rewrite Htr.
Qed.

End runs.

(** X19. A transport fault becomes a dict with [success] false and the
    error [<label>: <message>], the label being the first class, in the
    order TLS, connection, timeout, of which the exception is an instance,
    and [Request Error] for any other exception; the dict has no
    [_status_code] and no [_success], and has a [suggestion] exactly when
    the label is not [Request Error]. *)
Theorem fault_becomes_labelled_data (e : exn) :
  let d := outcome (Failed e) in
  d !! "success" = Some (JBool false)
  /\ d !! "error"
     = Some (JStr (fault_label (exn_cls e) +:+ ": " +:+ exn_msg e))
  /\ d !! "_status_code" = None
  /\ d !! "_success" = None
  /\ (is_Some (d !! "suggestion")
      <-> fault_label (exn_cls e) <> "Request Error"%string).
Proof.
  destruct e as [c msg]. cbn [outcome exn_cls exn_msg].
  destruct c; unfold request_handlers; cbn [exn_cls exn_msg is_SSLError
    is_ConnectionError is_Timeout fault_label];
    (split; [reflexivity|]); (split; [reflexivity|]);
    (split; [reflexivity|]); (split; [reflexivity|]);
    (split; [intros [x Hx]; try discriminate Hx; intros Hl; discriminate Hl
            |intros Hl; try (exfalso; apply Hl; reflexivity);
             eexists; reflexivity]).
Qed.

(** X18 (witness): a 404 of the server, whose body is a JSON object. *)
Lemma response_status_attached_witness :
  (json_value {| status_code := 404; text := "";
                 json_value := Some (JObj (mkdict [("_status_code", JInt 999)]%string)) |}
   = None
   \/ exists o, json_value {| status_code := 404; text := "";
                              json_value := Some (JObj (mkdict [("_status_code", JInt 999)]%string)) |}
                = Some (JObj o))
  /\ outcome (Responded {| status_code := 404; text := "";
                           json_value := Some (JObj (mkdict [("_status_code", JInt 999)]%string)) |})
     !! "_status_code" = Some (JInt 404).
Proof.
  assert (H : json_value {| status_code := 404; text := "";
                json_value := Some (JObj (mkdict [("_status_code", JInt 999)]%string)) |}
              = None
              \/ exists o, json_value {| status_code := 404; text := "";
                json_value := Some (JObj (mkdict [("_status_code", JInt 999)]%string)) |}
                = Some (JObj o))
    by (right; eexists; reflexivity).
  split; [exact H|].
  exact (proj1 (response_status_attached _ H)).
Defined.

(** X20 (witness): three attempts against a server that always answers
    503. *)
Lemma returning_call_trace_witness :
  exists d w',
    _request_with_retry (always unavailable) local_client "GET" "users" world0
    = (Ok d, w')
    /\ sleeps_of (trace w') = [FFin 1 0; FFin 1 0]
    /\ exchanges w' = 3%nat.
Proof.
  eexists _, _. split; [reflexivity|].
  destruct (returning_call_trace (always unavailable) local_client
              "GET" "users" _ _ eq_refl) as (N & _ & Hex & _ & Hs & _).
  split; [|reflexivity]. cbn [exchanges] in Hex. subst N. exact Hs.
Defined.

(** X21 (witness): the same server, and a client with a negative delay. *)
Lemma refused_delay_raises_witness :
  2 <= max_retries MoreSamples.backwards_client
  /\ sleep_check (always unavailable) (retry_delay MoreSamples.backwards_client)
     = Some (Exn ValueError "sleep length must be non-negative")
  /\ triggers (always unavailable)
       (outcome (net (always unavailable) (exchanges world0))) = true
  /\ fst (_request_with_retry (always unavailable)
            MoreSamples.backwards_client "GET" "users" world0)
     = Raise (Exn ValueError "sleep length must be non-negative").
Proof.
  assert (H1 : 2 <= max_retries MoreSamples.backwards_client) by discriminate.
  split; [exact H1|]. split; [reflexivity|]. split; [reflexivity|].
  rewrite (refused_delay_raises (always unavailable)
             MoreSamples.backwards_client "GET" "users" world0 _
             H1 eq_refl eq_refl).
  reflexivity.
Defined.

(** X22 (witness): a 200 answer with an empty JSON object. *)
Lemma plain_answer_is_returned_at_once_witness :
  1 <= max_retries local_client
  /\ net (always (Responded MoreSamples.ok_response)) (exchanges world0)
     = Responded MoreSamples.ok_response
  /\ json_value MoreSamples.ok_response = Some (JObj ∅)
  /\ (∅ : dict) !! "error" = None
  /\ status_code MoreSamples.ok_response < 500
  /\ exchanges (snd (_request_with_retry
                       (always (Responded MoreSamples.ok_response))
                       local_client "GET" "users" world0)) = 1%nat.
Proof.
  assert (H1 : 1 <= max_retries local_client) by discriminate.
  assert (H5 : status_code MoreSamples.ok_response < 500) by reflexivity.
  split; [exact H1|]. split; [reflexivity|]. split; [reflexivity|].
  split; [reflexivity|]. split; [exact H5|].
  rewrite (plain_answer_is_returned_at_once
             (always (Responded MoreSamples.ok_response)) local_client
             "GET" "users" world0 MoreSamples.ok_response ∅
             H1 eq_refl eq_refl eq_refl H5).
  reflexivity.
Defined.

End ClientMore.

(** ** The client's bodies at the server *)

Module EndToEnd.
Import Server StoreFacts.



End EndToEnd.
